(** * cubedash/_model.py: cached summaries, footprint reprojection,
      region clipping and GeoJSON assembly

    A shallow embedding of [src/cubedash/_model.py].  Python values that the
    module builds (dict and list literals) are kept as a small JSON-like
    tree; the libraries it calls (shapely, pyproj, dateutil, the summary
    store, the datacube index) are interfaces the development is
    parametrised over; the module-level [cache] and [STORE] singletons, the
    clock and the structlog output are threaded through a state-and-exception
    monad. *)

From Stdlib Require Import ZArith String.
From stdpp Require Import base gmap sets list strings.

Set Warnings "-register-all,-clear-no-such-hyp".

Local Open Scope Z_scope.
Local Open Scope string_scope.

(** ** Python results: a value or a raised exception *)

Inductive exn : Type :=
| RuntimeError (msg : string) (args : list string)
| ValueError (msg : string)
| TypeError (msg : string)
| KeyError (key : string)
| OtherError (name : string).

Inductive result (A : Type) : Type :=
| Ok (a : A)
| Raise (e : exn).
Arguments Ok {A} a.
Arguments Raise {A} e.

(** Positional arguments as they enter a memoisation key or a log record:
    a string, or an optional integer ([None] for an unset year, month or
    day). *)
Abbreviation Arg := (string + option Z)%type.
Abbreviation AStr s := (inl s : Arg) (only parsing).
Abbreviation AOpt o := (inr o : Arg) (only parsing).
Abbreviation AInt n := (inr (Some n) : Arg) (only parsing).

(** A cache key: the memoised function's name and its positional
    arguments. *)
Abbreviation Key := (string * list Arg)%type.

(** What the process leaves behind: backend invocations and structlog
    records. *)
Inductive Event : Type :=
| Backend (call : string) (args : list Arg)
| LogRecord (level event : string) (fields : list (string * Arg)).

(** [dir / name] on paths. *)
Definition path_join (dir name : string) : string := dir ++ "/" ++ name.

(** ** JSON-like Python values ([dict(...)], [[...]], [None], ints, strs) *)

Inductive pyval (J : Type) : Type :=
| PyNone
| PyInt (n : Z)
| PyStr (s : string)
| PyList (l : list (pyval J))
| PyDict (d : list (string * pyval J))
| PyGeo (j : J).
Arguments PyNone {J}.
Arguments PyInt {J} n.
Arguments PyStr {J} s.
Arguments PyList {J} l.
Arguments PyDict {J} d.
Arguments PyGeo {J} j.

(** An [Optional[int]] as a JSON value. *)
Definition py_opt_int {J} (o : option Z) : pyval J :=
  match o with Some n => PyInt n | None => PyNone end.

(** [d[k]] on a dict literal; [None] here stands for a missing key. *)
Fixpoint dict_get {J} (d : list (string * pyval J)) (k : string) : option (pyval J) :=
  match d with
  | [] => None
  | (k', v) :: d' => if String.eqb k k' then Some v else dict_get d' k
  end.

Definition py_getitem {J} (v : pyval J) (k : string) : option (pyval J) :=
  match v with PyDict d => dict_get d k | _ => None end.

(** ** [min] and [max] over an iterable of ints *)

Definition py_min (l : list Z) : result Z :=
  match l with
  | [] => Raise (ValueError "min() arg is an empty sequence")
  | x :: l' => Ok (foldl Z.min x l')
  end.

Definition py_max (l : list Z) : result Z :=
  match l with
  | [] => Raise (ValueError "max() arg is an empty sequence")
  | x :: l' => Ok (foldl Z.max x l')
  end.

(** The least and the greatest element of a list. *)
Definition is_minimum (m : Z) (l : list Z) : Prop :=
  m ∈ l /\ forall x, x ∈ l -> m <= x.

Definition is_maximum (m : Z) (l : list Z) : Prop :=
  m ∈ l /\ forall x, x ∈ l -> x <= m.

(** ** [Counter[str]]: region code to dataset count

    Keys are unique and iteration follows insertion order, so the mapping is
    kept as the list of its items; [counter_wf] is the uniqueness of keys. *)

Abbreviation Counter := (list (string * Z)).

Definition counter_wf (c : Counter) : Prop := NoDup (c.*1).

Definition counter_keys (c : Counter) : list string := c.*1.
Definition counter_values (c : Counter) : list Z := c.*2.

(** [c[k]]: a [Counter] answers 0 for a key it does not hold. *)
Fixpoint counter_getitem (c : Counter) (k : string) : Z :=
  match c with
  | [] => 0
  | (k', n) :: c' => if String.eqb k k' then n else counter_getitem c' k
  end.

(** [bool(c)]: a mapping is truthy when it has an item. *)
Definition counter_truthy (c : Counter) : bool :=
  match c with [] => false | _ => true end.

(** ** shapely: the operations the module calls, with their point-set
    meaning *)

Class Shapely (G Pt J : Type) : Type := {
  geom_covers : G -> Pt -> Prop;
  geom_is_empty : G -> bool;
  geom_boundary : G -> G;
  geom_intersects : G -> G -> bool;
  geom_intersection : G -> G -> G;
  ops_transform : (Pt -> Pt) -> G -> G;
  geo_interface : G -> J;
  geom_wkt : G -> string;
  geom_is_empty_spec : forall g, geom_is_empty g = true <-> forall p, ~ geom_covers g p;
  geom_intersects_spec : forall a b,
    geom_intersects a b = true <-> exists p, geom_covers a p /\ geom_covers b p;
  geom_intersection_spec : forall a b p,
    geom_covers (geom_intersection a b) p <-> geom_covers a p /\ geom_covers b p;
}.

(** [a] lies within [b]: every point of [a] is a point of [b]. *)
Definition geom_within {G Pt J} `{Shapely G Pt J} (a b : G) : Prop :=
  forall p, geom_covers a p -> geom_covers b p.

(** [bool(geometry)]: shapely geometries are falsy exactly when empty. *)
Definition geom_truthy {G Pt J} `{Shapely G Pt J} (g : G) : bool :=
  negb (geom_is_empty g).

(** [shapely.prepared.prep]: a wrapper answering the same predicates. *)
Record PreparedGeometry (G : Type) : Type := prep { context : G }.
Arguments prep {G} context.
Arguments context {G} p.

Definition prepared_intersects {G Pt J} `{Shapely G Pt J}
    (p : PreparedGeometry G) (g : G) : bool :=
  geom_intersects (context p) g.

(** ** pyproj *)

Class Pyproj (Pt : Type) : Type := {
  Proj : Type;
  Proj_init : string -> Proj;
  pyproj_transform : Proj -> Proj -> Pt -> Pt;
}.

(** ** The module, over its collaborators *)

Section Cubedash.

Context {G Pt J : Type} `{!Shapely G Pt J} `{!Pyproj Pt}.
Context {DatasetType datetime DB : Type}.

(** [cubedash.summary.TimePeriodOverview], the fields read here. *)
Record TimePeriodOverview : Type := {
  dataset_count : Z;
  footprint_geometry : option G;
  footprint_crs : string;
  footprint_count : Z;
  region_dataset_counts : Counter;
}.

(** [cubedash.summary._extents.RegionInfo], the attributes read here. *)
Record RegionInfo : Type := {
  name : string;
  unit_label : string;
  geographic_extent : option (string -> G);
  region_label : string -> string;
}.

(** The summary store and the datacube index behind [STORE]; [DB] is the
    state of the backend, which every query may read and change. *)
Class SummaryStore : Type := {
  STORE_get :
    string -> option Z -> option Z -> option Z -> DB -> result (option TimePeriodOverview) * DB;
  STORE_get_or_update :
    string -> option Z -> option Z -> option Z -> DB -> result (option TimePeriodOverview) * DB;
  STORE_get_dataset_footprints :
    string -> option Z -> option Z -> option Z -> Z -> DB -> result (pyval J) * DB;
  STORE_get_last_updated : DB -> result datetime * DB;
  STORE_list_complete_products : DB -> result (list string) * DB;
  index_products_get_all : DB -> result (list DatasetType) * DB;
  index_products_get_by_name : string -> DB -> result (option DatasetType) * DB;
  DatasetType_name : DatasetType -> string;
  RegionInfo_for_product : DatasetType -> option RegionInfo;
}.

Context `{!SummaryStore}.

(** [dateutil.parser.parse]. *)
Variable dateutil_parser_parse : string -> result datetime.

(** [SUMMARIES_DIR], [Path(__file__).parent.parent / 'product-summaries']:
    it follows from where the package is installed. *)
Variable SUMMARIES_DIR : string.

(** *** The cache, the clock, the override file and the trace *)

Inductive Cached : Type :=
| CSummary (o : option TimePeriodOverview)
| CGeoJSON (o : option (pyval J))
| CDatasets (v : pyval J)
| CTime (t : datetime)
| CProducts (l : list (DatasetType * option TimePeriodOverview)).

Record CacheEntry : Type := { expires : Z; cached : Cached }.

Record World : Type := mkWorld {
  w_store : DB;
  w_cache : gmap Key CacheEntry;
  w_now : Z;
  w_generated_txt : option string;
  w_trace : list Event;
}.

Definition set_store (s : DB) (w : World) : World :=
  mkWorld s (w_cache w) (w_now w) (w_generated_txt w) (w_trace w).
Definition set_cache (c : gmap Key CacheEntry) (w : World) : World :=
  mkWorld (w_store w) c (w_now w) (w_generated_txt w) (w_trace w).
Definition add_trace (e : Event) (w : World) : World :=
  mkWorld (w_store w) (w_cache w) (w_now w) (w_generated_txt w) (w_trace w ++ [e]).

(** *** State and exceptions *)

Definition M (A : Type) : Type := World -> result A * World.

#[global] Instance M_ret : MRet M := fun A a w => (Ok a, w).
#[global] Instance M_bind : MBind M := fun A B f m w =>
  match m w with
  | (Ok a, w') => f a w'
  | (Raise e, w') => (Raise e, w')
  end.

Definition raise {A} (e : exn) : M A := fun w => (Raise e, w).

#[global] Instance result_ret : MRet result := fun A a => Ok a.
#[global] Instance result_bind : MBind result := fun A B f r =>
  match r with
  | Ok a => f a
  | Raise e => Raise e
  end.

Definition lift {A} (r : result A) : M A := fun w => (r, w).

(** A query of the backend: it runs on the store and is traced. *)
Definition backend {A} (call : string) (args : list Arg)
    (op : DB -> result A * DB) : M A :=
  fun w =>
    let '(r, s') := op (w_store w) in
    (r, set_store s' (add_trace (Backend call args) w)).

(** [_LOG.<level>(event, **fields)]. *)
Definition log (level event : string) (fields : list (string * Arg)) : M unit :=
  fun w => (Ok tt, add_trace (LogRecord level event fields) w).

(** [time.time()], in whole seconds. *)
Definition time_time : M Z := fun w => (Ok (w_now w), w).

(** [path.exists()] and [path.read_text()] for
    [SUMMARIES_DIR / 'generated.txt']. *)
Definition path_exists : M bool :=
  fun w => (Ok (bool_decide (is_Some (w_generated_txt w))), w).
Definition path_read_text : M string :=
  fun w =>
    match w_generated_txt w with
    | Some text => (Ok text, w)
    | None => (Raise (OtherError "FileNotFoundError"), w)
    end.

(** *** [cache.memoize(timeout)]

    Modelled from the spec: Flask-Caching's [memoize] decorator is not part
    of the sources.  Following section 4.1, the key is the function with all
    its positional arguments; a hit within the time-to-live returns the
    stored value without running the function; a miss or an expired entry
    runs it, stores the result (an absent result too) with the time-to-live,
    and returns it.  An exception leaves the cache as the function left
    it. *)

Class Cacheable (V : Type) : Type := {
  to_cached : V -> Cached;
  of_cached : Cached -> option V;
  of_to_cached : forall v, of_cached (to_cached v) = Some v;
}.

#[global] Instance cacheable_summary : Cacheable (option TimePeriodOverview) :=
  {| to_cached := CSummary;
     of_cached c := match c with CSummary o => Some o | _ => None end;
     of_to_cached := fun _ => eq_refl |}.

#[global] Instance cacheable_geojson : Cacheable (option (pyval J)) :=
  {| to_cached := CGeoJSON;
     of_cached c := match c with CGeoJSON o => Some o | _ => None end;
     of_to_cached := fun _ => eq_refl |}.

#[global] Instance cacheable_datasets : Cacheable (pyval J) :=
  {| to_cached := CDatasets;
     of_cached c := match c with CDatasets v => Some v | _ => None end;
     of_to_cached := fun _ => eq_refl |}.

#[global] Instance cacheable_time : Cacheable datetime :=
  {| to_cached := CTime;
     of_cached c := match c with CTime t => Some t | _ => None end;
     of_to_cached := fun _ => eq_refl |}.

#[global] Instance cacheable_products :
    Cacheable (list (DatasetType * option TimePeriodOverview)) :=
  {| to_cached := CProducts;
     of_cached c := match c with CProducts l => Some l | _ => None end;
     of_to_cached := fun _ => eq_refl |}.

(** An entry is fresh while the clock is before its expiry. *)
Definition cache_get (c : gmap Key CacheEntry) (now : Z) (key : Key) : option Cached :=
  match c !! key with
  | Some e => if bool_decide (now < expires e) then Some (cached e) else None
  | None => None
  end.

Definition cache_set (key : Key) (v : Cached) (timeout : Z) : M unit :=
  fun w =>
    (Ok tt,
     set_cache (<[key := {| expires := w_now w + timeout; cached := v |}]> (w_cache w)) w).

Definition memoize {V} `{!Cacheable V} (timeout : Z) (fname : string)
    (args : list Arg) (f : M V) : M V :=
  fun w =>
    match cache_get (w_cache w) (w_now w) (fname, args) ≫= of_cached with
    | Some rv => (Ok rv, w)
    | None => (rv ← f; cache_set (fname, args) (to_cached rv) timeout;; mret rv) w
    end.

(** *** The memoised queries *)

(** [get_summary.uncached]: the decorated body. *)
Definition get_summary_uncached (product_name : string)
    (year month day : option Z) : M (option TimePeriodOverview) :=
  (* If it's a day, feel free to update/generate it, because it's quick. *)
  if bool_decide (is_Some day) then
    backend "STORE.get_or_update" [AStr product_name; AOpt year; AOpt month; AOpt day]
      (STORE_get_or_update product_name year month day)
  else
    backend "STORE.get" [AStr product_name; AOpt year; AOpt month; AOpt day]
      (STORE_get product_name year month day).

Definition get_summary (product_name : string)
    (year month day : option Z) : M (option TimePeriodOverview) :=
  memoize 60 "get_summary" [AStr product_name; AOpt year; AOpt month; AOpt day]
    (get_summary_uncached product_name year month day).

Definition get_datasets_geojson_uncached (product_name : string)
    (year month day : option Z) (limit : Z) : M (pyval J) :=
  backend "STORE.get_dataset_footprints"
    [AStr product_name; AOpt year; AOpt month; AOpt day; AInt limit]
    (STORE_get_dataset_footprints product_name year month day limit).

Definition get_datasets_geojson (product_name : string)
    (year month day : option Z) (limit : Z) : M (pyval J) :=
  memoize 60 "get_datasets_geojson"
    [AStr product_name; AOpt year; AOpt month; AOpt day; AInt limit]
    (get_datasets_geojson_uncached product_name year month day limit).

Definition get_last_updated_uncached : M datetime :=
  (* Drop a text file in to override the "updated time". *)
  let path := path_join SUMMARIES_DIR "generated.txt" in
  present ← path_exists;
  if (present : bool) then
    date_text ← path_read_text;
    match dateutil_parser_parse date_text with
    | Ok t => mret t
    | Raise (ValueError _) =>
        log "warn" "invalid.summary.generated.txt"
          [("text", AStr date_text); ("path", AStr path)];;
        backend "STORE.get_last_updated" [] STORE_get_last_updated
    | Raise e => raise e
    end
  else backend "STORE.get_last_updated" [] STORE_get_last_updated.

Definition get_last_updated : M datetime :=
  memoize 120 "get_last_updated" [] get_last_updated_uncached.

(** [{p.name: p for p in ...}]: a later product replaces an earlier one of
    the same name. *)
Definition index_by_name (ps : list DatasetType) : gmap string DatasetType :=
  foldl (fun m p => <[DatasetType_name p := p]> m) ∅ ps.

Definition get_products_with_summaries_uncached :
    M (list (DatasetType * option TimePeriodOverview)) :=
  all ← backend "STORE.index.products.get_all" [] index_products_get_all;
  let index_products := index_by_name all in
  complete ← backend "STORE.list_complete_products" [] STORE_list_complete_products;
  products ← mapM (fun product_name =>
      match index_products !! product_name with
      | Some p => summary ← get_summary product_name None None None; mret (p, summary)
      | None => raise (KeyError product_name)
      end) complete;
  match products with
  | [] => raise (RuntimeError
      "No product reports. Run `python -m cubedash.generate --all` to generate some." [])
  | _ => mret products
  end.

Definition get_products_with_summaries :
    M (list (DatasetType * option TimePeriodOverview)) :=
  memoize 120 "get_products_with_summaries" [] get_products_with_summaries_uncached.

(** *** Reprojection of the footprint *)

(** [not period or not period.dataset_count]. *)
Definition period_falsy (period : option TimePeriodOverview) : bool :=
  match period with
  | None => true
  | Some p => bool_decide (dataset_count p = 0)
  end.

(** [bool(x)] for an optional geometry: [None] and empty geometries are
    falsy. *)
Definition opt_geom_truthy (g : option G) : bool :=
  match g with
  | None => false
  | Some g => geom_truthy g
  end.

Definition str_len (s : string) : Z := Z.of_nat (String.length s).

Definition _get_footprint (period : option TimePeriodOverview) : M (option G) :=
  match period with
  | None => mret None
  | Some p =>
    if period_falsy period then mret None
    else if negb (opt_geom_truthy (footprint_geometry p)) then mret None
    else
      match footprint_geometry p with
      | None => mret None
      | Some geometry =>
        start ← time_time;
        let from_crs := Proj_init (footprint_crs p) in
        let to_crs := Proj_init "epsg:4326" in
        let footprint_wrs84 :=
          ops_transform (pyproj_transform from_crs to_crs) geometry in
        log "info" "overview.footprint_size_diff"
          [("from_len", AInt (str_len (geom_wkt geometry)));
           ("to_len", AInt (str_len (geom_wkt footprint_wrs84)))];;
        stop ← time_time;
        log "debug" "overview.footprint_proj" [("time_sec", AInt (stop - start))];;
        mret (Some footprint_wrs84)
      end
  end.

(** *** Footprint Feature *)

Definition footprint_feature (product_name : string) (year month day : option Z)
    (period : TimePeriodOverview) (footprint : G) : pyval J :=
  PyDict
    [("type", PyStr "Feature");
     ("geometry", PyGeo (geo_interface footprint));
     ("properties", PyDict
        [("dataset_count", PyInt (footprint_count period));
         ("product_name", PyStr product_name);
         ("time_spec", PyList [py_opt_int year; py_opt_int month; py_opt_int day])])].

Definition get_footprint_geojson_uncached (product_name : string)
    (year month day : option Z) : M (option (pyval J)) :=
  period ← get_summary product_name year month day;
  match period with
  | None => mret None
  | Some p =>
    footprint ← _get_footprint (Some p);
    if negb (opt_geom_truthy footprint) then mret None
    else
      match footprint with
      | None => mret None
      | Some fp => mret (Some (footprint_feature product_name year month day p fp))
      end
  end.

Definition get_footprint_geojson (product_name : string)
    (year month day : option Z) : M (option (pyval J)) :=
  memoize 60 "get_footprint_geojson"
    [AStr product_name; AOpt year; AOpt month; AOpt day]
    (get_footprint_geojson_uncached product_name year month day).

(** *** Region clipping *)

(** Calling [region_shape(region_code)]; the attribute may be [None]. *)
Definition call_region_shape (region_shape : option (string -> G))
    (region_code : string) : result G :=
  match region_shape with
  | Some f => Ok (f region_code)
  | None => Raise (TypeError "'NoneType' object is not callable")
  end.

(** The closure [region_geometry_cut], with the variables it captures
    ([region_shape], [footprint], [footprint_boundary]) as parameters. *)
Definition region_geometry_cut (region_shape : option (string -> G))
    (footprint : G) (footprint_boundary : PreparedGeometry G)
    (region_code : string) : result G :=
  shapely_extent ← call_region_shape region_shape region_code;
  (* We only need to cut up tiles that touch the edges of the footprint
     (including inner "holes") *)
  if prepared_intersects footprint_boundary shapely_extent then
    Ok (geom_intersection footprint shapely_extent)
  else
    Ok shapely_extent.

(** The returned callable, or [None]. *)
Definition _region_geometry_function (region_info : RegionInfo)
    (footprint : option G) : option (string -> result G) :=
  let region_shape := geographic_extent region_info in
  match footprint with
  | None =>
      match region_shape with
      | Some f => Some (fun region_code => Ok (f region_code))
      | None => None
      end
  | Some fp =>
      let footprint_boundary := prep (geom_boundary fp) in
      Some (region_geometry_cut region_shape fp footprint_boundary)
  end.

Definition region_feature (region_info : RegionInfo) (region_counts : Counter)
    (region_geometry : string -> result G) (region_code : string) : result (pyval J) :=
  geometry ← region_geometry region_code;
  Ok (PyDict
    [("type", PyStr "Feature");
     ("geometry", PyGeo (geo_interface geometry));
     ("properties", PyDict
        [("region_code", PyStr region_code);
         ("label", PyStr (region_label region_info region_code));
         ("count", PyInt (counter_getitem region_counts region_code))])]).

Definition _get_regions_geojson (region_counts : Counter) (footprint : option G)
    (region_info : RegionInfo) : result (option (pyval J)) :=
  match _region_geometry_function region_info footprint with
  | None => Ok None
  | Some region_geometry =>
    low ← py_min (counter_values region_counts);
    high ← py_max (counter_values region_counts);
    features ← mapM (region_feature region_info region_counts region_geometry)
                 (counter_keys region_counts);
    Ok (Some (PyDict
      [("type", PyStr "FeatureCollection");
       ("properties", PyDict
          [("region_type", PyStr (name region_info));
           ("region_unit_label", PyStr (unit_label region_info));
           ("min_count", PyInt low);
           ("max_count", PyInt high)]);
       ("features", PyList features)]))
  end.

Definition get_regions_geojson_uncached (product_name : string)
    (year month day : option Z) : M (option (pyval J)) :=
  period ← get_summary product_name year month day;
  match period with
  | None => mret None
  | Some p =>
    product ← backend "STORE.index.products.get_by_name" [AStr product_name]
                (index_products_get_by_name product_name);
    match product with
    | None => raise (RuntimeError "Unknown product despite having a summary?" [product_name])
    | Some product =>
      if negb (counter_truthy (region_dataset_counts p)) then mret None
      else
        match RegionInfo_for_product product with
        | None => mret None
        | Some region_info =>
          footprint_wrs84 ← _get_footprint (Some p);
          start ← time_time;
          regions ← lift (_get_regions_geojson (region_dataset_counts p)
                            footprint_wrs84 region_info);
          stop ← time_time;
          log "debug" "overview.region_gen" [("time_sec", AInt (stop - start))];;
          mret regions
        end
    end
  end.

Definition get_regions_geojson (product_name : string)
    (year month day : option Z) : M (option (pyval J)) :=
  memoize 60 "get_regions_geojson"
    [AStr product_name; AOpt year; AOpt month; AOpt day]
    (get_regions_geojson_uncached product_name year month day).

(** *** Vocabulary of the statements *)

(** The Feature of one item of the counts mapping, around geometry [g]. *)
Definition region_feature_of (region_info : RegionInfo) (item : string * Z) (g : G) : pyval J :=
  PyDict
    [("type", PyStr "Feature");
     ("geometry", PyGeo (geo_interface g));
     ("properties", PyDict
        [("region_code", PyStr item.1);
         ("label", PyStr (region_label region_info item.1));
         ("count", PyInt item.2)])].

(** The footprint of a summary in the display coordinate system
    ("epsg:4326", geographic degrees). *)
Definition to_display (crs : string) (g : G) : G :=
  ops_transform (pyproj_transform (Proj_init crs) (Proj_init "epsg:4326")) g.

(** [feature["properties"][key]]. *)
Definition feature_property (feature : pyval J) (key : string) : option (pyval J) :=
  py_getitem feature "properties" ≫= fun properties => py_getitem properties key.

(** An operation that leaves the clock alone. *)
Definition keeps_clock {A} (m : M A) : Prop :=
  forall w, w_now (m w).2 = w_now w.

(** A memoised query [q], decorated from [body] under [key] with
    time-to-live [ttl]: once a call has computed and returned a value, a
    call on the same cache before the time-to-live has passed returns that
    value and leaves the world (backend, trace) as it finds it; from the
    expiry on, a call runs the body again. *)
Definition cache_idempotent {V} `{!Cacheable V} (q : M V) (key : Key) (ttl : Z)
    (body : M V) : Prop :=
  forall w v w1 w2,
    cache_get (w_cache w) (w_now w) key = None ->
    q w = (Ok v, w1) ->
    w_cache w2 = w_cache w1 ->
    (w_now w2 < w_now w + ttl -> q w2 = (Ok v, w2)) /\
    (w_now w + ttl <= w_now w2 ->
       q w2 = (rv ← body; cache_set key (to_cached rv) ttl;; mret rv) w2).

(** A Feature of the footprint kind around a non-empty geometry. *)
Definition nonempty_footprint_feature (feature : pyval J) : Prop :=
  exists product_name year month day period (footprint : G),
    feature = footprint_feature product_name year month day period footprint /\
    geom_is_empty footprint = false.

(** Every Feature the cache holds for [get_footprint_geojson] has a
    non-empty geometry. *)
Definition footprint_entries_nonempty (c : gmap Key CacheEntry) : Prop :=
  forall args e feature,
    c !! ("get_footprint_geojson", args) = Some e ->
    cached e = CGeoJSON (Some feature) ->
    nonempty_footprint_feature feature.

(** The geometry the per-region function yields for a region of full
    extent [extent]: the extent itself without footprint or off its
    boundary, the intersection with the footprint on its boundary. *)
Definition clipped (footprint : option G) (extent : G) : G :=
  match footprint with
  | None => extent
  | Some fp =>
      if prepared_intersects (prep (geom_boundary fp)) extent
      then geom_intersection fp extent
      else extent
  end.

(** The value [_get_footprint] computes for a summary. *)
Definition display_footprint (period : TimePeriodOverview) : option G :=
  if bool_decide (dataset_count period = 0) then None
  else
    match footprint_geometry period with
    | Some g => if geom_is_empty g then None
                else Some (to_display (footprint_crs period) g)
    | None => None
    end.

(** The region collection around its minimum, maximum and features. *)
Definition region_collection (region_info : RegionInfo) (low high : Z)
    (features : list (pyval J)) : pyval J :=
  PyDict
    [("type", PyStr "FeatureCollection");
     ("properties", PyDict
        [("region_type", PyStr (name region_info));
         ("region_unit_label", PyStr (unit_label region_info));
         ("min_count", PyInt low);
         ("max_count", PyInt high)]);
     ("features", PyList features)].

(** A trace event that is a structlog record, not a backend call. *)
Definition is_log_record (e : Event) : Prop :=
  match e with LogRecord _ _ _ => True | Backend _ _ => False end.

End Cubedash.

(** ** A concrete instance: geometries as finite sets of grid cells *)

Module Demo.

Abbreviation cell := (Z * Z)%type.

(** The cells [x0 <= x < x0 + w], [y0 <= y < y0 + h]. *)
Definition rect (x0 y0 : Z) (w h : nat) : gset cell :=
  list_to_set (x ← seqZ x0 (Z.of_nat w); y ← seqZ y0 (Z.of_nat h); [(x, y)]).

Definition neighbours (p : cell) : list cell :=
  [(p.1 - 1, p.2); (p.1 + 1, p.2); (p.1, p.2 - 1); (p.1, p.2 + 1)].

(** A cell is on the boundary when one of its four neighbours is outside. *)
Definition on_boundary (g : gset cell) (p : cell) : Prop :=
  Exists (fun q => q ∉ g) (neighbours p).

#[global] Instance on_boundary_dec g p : Decision (on_boundary g p).
Proof. unfold on_boundary. apply _. Defined.

(** The display coordinate system covers longitudes -180..180 and latitudes
    -90..90; cells projected outside it are dropped. *)
Definition in_display (p : cell) : Prop :=
  -180 <= p.1 <= 180 /\ -90 <= p.2 <= 90.

#[global] Instance in_display_dec p : Decision (in_display p).
Proof. unfold in_display. apply _. Defined.

Definition grid_transform (f : cell -> cell) (g : gset cell) : gset cell :=
  filter in_display (set_map f g).

Lemma grid_is_empty_spec (g : gset cell) :
  bool_decide (g = ∅) = true <-> forall p, ~ p ∈ g.
Proof. rewrite bool_decide_eq_true. set_solver. Qed.

Lemma grid_intersects_spec (a b : gset cell) :
  bool_decide (a ∩ b ≠ ∅) = true <-> exists p, p ∈ a /\ p ∈ b.
Proof.
  rewrite bool_decide_eq_true. split.
  - intros Hne. apply set_choose_L in Hne as [p Hp]. exists p. set_solver.
  - intros [p [Ha Hb]]. set_solver.
Qed.

Lemma grid_intersection_spec (a b : gset cell) (p : cell) :
  p ∈ a ∩ b <-> p ∈ a /\ p ∈ b.
Proof. apply elem_of_intersection. Qed.

#[global] Instance grid_shapely : Shapely (gset cell) cell (list cell) := {|
  geom_covers g p := p ∈ g;
  geom_is_empty g := bool_decide (g = ∅);
  geom_boundary g := filter (on_boundary g) g;
  geom_intersects a b := bool_decide (a ∩ b ≠ ∅);
  geom_intersection a b := a ∩ b;
  ops_transform := grid_transform;
  geo_interface g := elements g;
  geom_wkt g := if bool_decide (g = ∅) then "GEOMETRYCOLLECTION EMPTY" else "MULTIPOINT";
  geom_is_empty_spec := grid_is_empty_spec;
  geom_intersects_spec := grid_intersects_spec;
  geom_intersection_spec := grid_intersection_spec;
|}.

(** A projection is the offset of its origin; "epsg:4326" is the display
    system. *)
#[global] Instance grid_pyproj : Pyproj cell := {|
  Proj := cell;
  Proj_init crs := if String.eqb crs "epsg:4326" then (0, 0) else (100, 50);
  pyproj_transform from_crs to_crs p :=
    (p.1 + from_crs.1 - to_crs.1, p.2 + from_crs.2 - to_crs.2);
|}.

Abbreviation Overview := (@TimePeriodOverview (gset cell)).
Abbreviation Regions := (@RegionInfo (gset cell)).

Definition demo_scene : Overview :=
  {| dataset_count := 3;
     footprint_geometry := Some (rect 0 0 6 6);
     footprint_crs := "EPSG:32755";
     footprint_count := 2;
     region_dataset_counts := [("r1", 1); ("r2", 2)] |}.

(** A summary whose product the index does not know. *)
Definition ghost : Overview :=
  {| dataset_count := 1;
     footprint_geometry := None;
     footprint_crs := "EPSG:32755";
     footprint_count := 0;
     region_dataset_counts := [] |}.

(** A summary with datasets and an empty footprint geometry. *)
Definition hollow : Overview :=
  {| dataset_count := 1;
     footprint_geometry := Some ∅;
     footprint_crs := "EPSG:32755";
     footprint_count := 1;
     region_dataset_counts := [] |}.

(** A summary whose footprint projects outside the display system. *)
Definition faraway : Overview :=
  {| dataset_count := 1;
     footprint_geometry := Some (rect 500 500 2 2);
     footprint_crs := "EPSG:32755";
     footprint_count := 1;
     region_dataset_counts := [("r1", 1)] |}.

(** A summary without footprint, for a product whose region catalog has no
    geometry function. *)
Definition flat : Overview :=
  {| dataset_count := 2;
     footprint_geometry := None;
     footprint_crs := "EPSG:32755";
     footprint_count := 0;
     region_dataset_counts := [("r1", 2)] |}.

(** A summary with a footprint, for a product whose region catalog has no
    geometry function. *)
Definition bare : Overview :=
  {| dataset_count := 1;
     footprint_geometry := Some (rect 0 0 2 2);
     footprint_crs := "EPSG:32755";
     footprint_count := 1;
     region_dataset_counts := [("r1", 1)] |}.

(** The footprint of [demo_scene] in display coordinates. *)
Definition demo_footprint : gset cell := to_display "EPSG:32755" (rect 0 0 6 6).

Definition demo_extent (region_code : string) : gset cell :=
  if String.eqb region_code "r1" then rect 101 51 2 2
  else if String.eqb region_code "r2" then rect 104 54 4 4
  else ∅.

Definition demo_regions : Regions :=
  {| name := "tiles";
     unit_label := "tile";
     geographic_extent := Some demo_extent;
     region_label := fun region_code => "Tile " ++ region_code |}.

Definition shapeless_regions : Regions :=
  {| name := "tiles";
     unit_label := "tile";
     geographic_extent := None;
     region_label := fun region_code => "Tile " ++ region_code |}.

Definition demo_summary (product_name : string) : option Overview :=
  if String.eqb product_name "demo_scene" then Some demo_scene
  else if String.eqb product_name "ghost" then Some ghost
  else if String.eqb product_name "hollow" then Some hollow
  else if String.eqb product_name "faraway" then Some faraway
  else if String.eqb product_name "flat" then Some flat
  else if String.eqb product_name "bare" then Some bare
  else None.

Definition demo_products : list string :=
  ["demo_scene"; "hollow"; "faraway"; "flat"; "bare"].

(** The backend state counts the queries answered so far; the last-updated
    timestamp is that count, so two backend answers differ. *)
#[global] Instance demo_store : @SummaryStore (gset cell) (list cell) string Z nat := {|
  STORE_get product_name _ _ _ n := (Ok (demo_summary product_name), S n);
  STORE_get_or_update product_name _ _ _ n := (Ok (demo_summary product_name), S n);
  STORE_get_dataset_footprints _ _ _ _ limit n :=
    (Ok (PyDict [("type", PyStr "FeatureCollection"); ("features", PyList [])]), S n);
  STORE_get_last_updated n := (Ok (Z.of_nat n), S n);
  STORE_list_complete_products n := (Ok ["demo_scene"], S n);
  index_products_get_all n := (Ok demo_products, S n);
  index_products_get_by_name product_name n :=
    (Ok (if bool_decide (product_name ∈ demo_products) then Some product_name else None), S n);
  DatasetType_name p := p;
  RegionInfo_for_product p :=
    if String.eqb p "demo_scene" then Some demo_regions
    else if String.eqb p "flat" || String.eqb p "bare" then Some shapeless_regions
    else None;
|}.

(** The same backend with another list of complete products. *)
Definition store_with (complete : list string) :
    @SummaryStore (gset cell) (list cell) string Z nat := {|
  STORE_get := STORE_get (SummaryStore := demo_store);
  STORE_get_or_update := STORE_get_or_update (SummaryStore := demo_store);
  STORE_get_dataset_footprints :=
    STORE_get_dataset_footprints (SummaryStore := demo_store);
  STORE_get_last_updated := STORE_get_last_updated (SummaryStore := demo_store);
  STORE_list_complete_products n := (Ok complete, S n);
  index_products_get_all := index_products_get_all (SummaryStore := demo_store);
  index_products_get_by_name :=
    index_products_get_by_name (SummaryStore := demo_store);
  DatasetType_name := DatasetType_name (SummaryStore := demo_store);
  RegionInfo_for_product := RegionInfo_for_product (SummaryStore := demo_store);
|}.

(** [dateutil.parser.parse] on the two texts the examples use. *)
Definition demo_parse (text : string) : result Z :=
  if String.eqb text "2018-01-01" then Ok 1514764800
  else Raise (ValueError "Unknown string format").


Definition summaries_dir : string := "/srv/cubedash/product-summaries".

Abbreviation W := (@World (gset cell) (list cell) string Z nat).

Definition world0 : W :=
  {| w_store := 0%nat; w_cache := ∅; w_now := 1000;
     w_generated_txt := None; w_trace := [] |}.

(** The clock moves on by [dt] seconds. *)
Definition later (dt : Z) (w : W) : W :=
  {| w_store := w_store w; w_cache := w_cache w; w_now := w_now w + dt;
     w_generated_txt := w_generated_txt w; w_trace := w_trace w |}.


End Demo.

(** ** Properties *)

Section Properties.

Set Default Proof Using "Type".

Context {G Pt J : Type} `{!Shapely G Pt J} `{!Pyproj Pt}.
Context {DatasetType datetime DB : Type}.
Context `{!@SummaryStore G J DatasetType datetime DB}.
Variable dateutil_parser_parse : string -> result datetime.

Implicit Types (w : @World G J DatasetType datetime DB).
Implicit Types (period : @TimePeriodOverview G) (region_info : @RegionInfo G).

(** *** Running the monad *)

Lemma bind_ok {A B} (m : M A) (f : A -> M B) w a w' :
  m w = (Ok a, w') -> (m ≫= f) w = f a w'.
Proof. intros Hm. unfold mbind, M_bind. by rewrite Hm. Qed.

Lemma bind_raise {A B} (m : M A) (f : A -> M B) w e w' :
  m w = (Raise e, w') -> (m ≫= f) w = (Raise e, w').
Proof. intros Hm. unfold mbind, M_bind. by rewrite Hm. Qed.

Lemma backend_run {A} call args (op : DB -> result A * DB) w :
  backend call args op w =
    ((op (w_store w)).1,
     set_store (op (w_store w)).2 (add_trace (Backend call args) w)).
Proof. unfold backend. by destruct (op (w_store w)). Qed.

(** *** Minimum and maximum *)

Lemma foldl_min_is_minimum (l : list Z) (x : Z) :
  is_minimum (foldl Z.min x l) (x :: l).
Proof.
  revert x. induction l as [|y l IH]; intros x; simpl.
  - split; [set_solver|]. intros z Hz. apply list_elem_of_singleton in Hz. lia.
  - destruct (IH (Z.min x y)) as [Hin Hle]. split.
    + apply elem_of_cons in Hin as [Heq|Hin].
      * rewrite Heq. destruct (Z.min_spec x y) as [[_ ->]|[_ ->]]; set_solver.
      * set_solver.
    + intros z Hz.
      assert (foldl Z.min (Z.min x y) l <= Z.min x y) by (apply Hle; set_solver).
      apply elem_of_cons in Hz as [->|Hz]; [lia|].
      apply elem_of_cons in Hz as [->|Hz]; [lia|].
      apply Hle. set_solver.
Qed.

Lemma foldl_max_is_maximum (l : list Z) (x : Z) :
  is_maximum (foldl Z.max x l) (x :: l).
Proof.
  revert x. induction l as [|y l IH]; intros x; simpl.
  - split; [set_solver|]. intros z Hz. apply list_elem_of_singleton in Hz. lia.
  - destruct (IH (Z.max x y)) as [Hin Hle]. split.
    + apply elem_of_cons in Hin as [Heq|Hin].
      * rewrite Heq. destruct (Z.max_spec x y) as [[_ ->]|[_ ->]]; set_solver.
      * set_solver.
    + intros z Hz.
      assert (Z.max x y <= foldl Z.max (Z.max x y) l) by (apply Hle; set_solver).
      apply elem_of_cons in Hz as [->|Hz]; [lia|].
      apply elem_of_cons in Hz as [->|Hz]; [lia|].
      apply Hle. set_solver.
Qed.

Lemma py_min_spec (l : list Z) :
  l ≠ [] -> exists m, py_min l = Ok m /\ is_minimum m l.
Proof.
  destruct l as [|x l]; [done|]. intros _. eexists. split; [done|].
  apply foldl_min_is_minimum.
Qed.

Lemma py_max_spec (l : list Z) :
  l ≠ [] -> exists m, py_max l = Ok m /\ is_maximum m l.
Proof.
  destruct l as [|x l]; [done|]. intros _. eexists. split; [done|].
  apply foldl_max_is_maximum.
Qed.

(** *** Counters *)

Lemma counter_getitem_item (c : Counter) (k : string) (n : Z) :
  counter_wf c -> (k, n) ∈ c -> counter_getitem c k = n.
Proof.
  unfold counter_wf. induction c as [|[k' n'] c IH]; simpl; intros Hnd Hin.
  - by apply elem_of_nil in Hin.
  - apply NoDup_cons in Hnd as [Hk' Hnd].
    apply elem_of_cons in Hin as [Heq|Hin].
    + injection Heq as -> ->. by rewrite String.eqb_refl.
    + destruct (String.eqb_spec k k') as [->|_]; [|by apply IH].
      exfalso. apply Hk'. apply list_elem_of_fmap. by exists (k', n).
Qed.

(** *** Region Clipper *)

(** C2: when the boundary of the footprint does not intersect the full
    extent of a region, the per-region function built for that footprint
    returns the region's extent itself. *)
Theorem region_off_boundary_unchanged region_info (footprint : G)
    (extent : string -> G) (region_code : string) :
  geographic_extent region_info = Some extent ->
  prepared_intersects (prep (geom_boundary footprint)) (extent region_code) = false ->
  exists cut,
    _region_geometry_function region_info (Some footprint) = Some cut /\
    cut region_code = Ok (extent region_code).
Proof.
  intros Hextent Hmiss. eexists. split; [reflexivity|].
  unfold region_geometry_cut. rewrite Hextent. simpl. by rewrite Hmiss.
Qed.

(** C3: when the boundary of the footprint intersects the full extent of a
    region, the per-region function returns the intersection of the
    footprint with that extent, and the result lies within the extent. *)
Theorem region_on_boundary_clipped region_info (footprint : G)
    (extent : string -> G) (region_code : string) :
  geographic_extent region_info = Some extent ->
  prepared_intersects (prep (geom_boundary footprint)) (extent region_code) = true ->
  exists cut,
    _region_geometry_function region_info (Some footprint) = Some cut /\
    cut region_code = Ok (geom_intersection footprint (extent region_code)) /\
    geom_within (geom_intersection footprint (extent region_code)) (extent region_code).
Proof.
  intros Hextent Hhit. eexists. split; [reflexivity|]. split.
  - unfold region_geometry_cut. rewrite Hextent. simpl. by rewrite Hhit.
  - intros p Hp. by apply geom_intersection_spec in Hp as [_ Hp].
Qed.

(** *** Region FeatureCollection *)

(** The per-region function never raises when the catalog has a geometry
    function. *)
Lemma region_geometry_function_total region_info (footprint : option G)
    (extent : string -> G) :
  geographic_extent region_info = Some extent ->
  exists region_geometry,
    _region_geometry_function region_info footprint = Some region_geometry /\
    forall region_code, exists g, region_geometry region_code = Ok g.
Proof.
  intros Hextent. unfold _region_geometry_function. rewrite Hextent.
  destruct footprint as [fp|]; (eexists; split; [reflexivity|]); intros region_code.
  - unfold region_geometry_cut. simpl.
    destruct (prepared_intersects _ _); eauto.
  - eauto.
Qed.

Lemma mapM_result_cons {A B} (f : A -> result B) x l y k :
  f x = Ok y -> mapM f l = Ok k -> mapM f (x :: l) = Ok (y :: k).
Proof. intros Hx Hl. simpl. rewrite Hx. simpl. by rewrite Hl. Qed.

Lemma region_feature_ok region_info (region_counts : Counter)
    (region_geometry : string -> result G) (item : string * Z) (g : G) :
  counter_wf region_counts ->
  item ∈ region_counts ->
  region_geometry item.1 = Ok g ->
  region_feature region_info region_counts region_geometry item.1
    = Ok (region_feature_of region_info item g).
Proof.
  intros Hwf Hin Hg. destruct item as [k n]. simpl in *.
  unfold region_feature. rewrite Hg. simpl.
  by rewrite (counter_getitem_item region_counts k n).
Qed.

Lemma mapM_region_features region_info (region_counts all : Counter)
    (region_geometry : string -> result G) :
  counter_wf all ->
  (forall item, item ∈ region_counts -> item ∈ all) ->
  (forall region_code, exists g, region_geometry region_code = Ok g) ->
  exists features,
    mapM (region_feature region_info all region_geometry) (counter_keys region_counts)
      = Ok features /\
    Forall2 (fun item feature => exists g,
               region_geometry item.1 = Ok g /\
               feature = region_feature_of region_info item g)
      region_counts features.
Proof.
  intros Hwf Hsub Htotal. induction region_counts as [|[k n] c IH].
  - exists []. split; [done|constructor].
  - destruct IH as [features [Hmap Hall]];
      [intros item Hitem; by apply Hsub, list_elem_of_further|].
    destruct (Htotal k) as [g Hg].
    exists (region_feature_of region_info (k, n) g :: features). split.
    + unfold counter_keys in Hmap |- *.
      pose proof (region_feature_ok region_info all region_geometry (k, n) g
                    Hwf (Hsub _ (list_elem_of_here _ _)) Hg) as Hfeature.
      by apply mapM_result_cons.
    + constructor; [|done]. by exists g.
Qed.

(** C5: for a non-empty counts mapping and a catalog with a geometry
    function, the collection is assembled; its [min_count] and [max_count]
    are the least and the greatest count of the mapping, and its features
    are, item by item, one Feature per region code carrying that region's
    geometry, code, label and count. *)
Theorem regions_collection_counts (region_counts : Counter)
    (footprint : option G) region_info (extent : string -> G) :
  region_counts ≠ [] ->
  counter_wf region_counts ->
  geographic_extent region_info = Some extent ->
  exists region_geometry low high features,
    _region_geometry_function region_info footprint = Some region_geometry /\
    _get_regions_geojson region_counts footprint region_info =
      Ok (Some (PyDict
        [("type", PyStr "FeatureCollection");
         ("properties", PyDict
            [("region_type", PyStr (name region_info));
             ("region_unit_label", PyStr (unit_label region_info));
             ("min_count", PyInt low);
             ("max_count", PyInt high)]);
         ("features", PyList features)])) /\
    is_minimum low (counter_values region_counts) /\
    is_maximum high (counter_values region_counts) /\
    Forall2 (fun item feature => exists g,
               region_geometry item.1 = Ok g /\
               feature = region_feature_of region_info item g)
      region_counts features.
Proof.
  intros Hne Hwf Hextent.
  destruct (region_geometry_function_total region_info footprint extent Hextent)
    as [region_geometry [Hfun Htotal]].
  assert (counter_values region_counts ≠ []) as Hvalues
    by (unfold counter_values; by destruct region_counts).
  destruct (py_min_spec _ Hvalues) as [low [Hlow Hmin]].
  destruct (py_max_spec _ Hvalues) as [high [Hhigh Hmax]].
  destruct (mapM_region_features region_info region_counts region_counts
              region_geometry Hwf (fun _ H => H) Htotal) as [features [Hmap Hall]].
  exists region_geometry, low, high, features. repeat split; try done.
  - unfold _get_regions_geojson. rewrite Hfun, Hlow. simpl.
    rewrite Hhigh. simpl. by rewrite Hmap.
  - by destruct Hmin.
  - by destruct Hmin.
  - by destruct Hmax.
  - by destruct Hmax.
Qed.

(** *** Reprojector *)

Lemma _get_footprint_absent period w :
  period_falsy (Some period) = true \/
  opt_geom_truthy (footprint_geometry period) = false ->
  _get_footprint (Some period) w = (Ok None, w).
Proof.
  intros Hfalsy. unfold _get_footprint.
  destruct (period_falsy (Some period)); [done|].
  destruct Hfalsy as [?|Hgeom]; [done|]. by rewrite Hgeom.
Qed.

Lemma _get_footprint_present period (g : G) w :
  dataset_count period ≠ 0 ->
  footprint_geometry period = Some g ->
  geom_is_empty g = false ->
  exists w',
    _get_footprint (Some period) w = (Ok (Some (to_display (footprint_crs period) g)), w') /\
    w_cache w' = w_cache w /\ w_store w' = w_store w /\ w_now w' = w_now w.
Proof.
  intros Hcount Hgeom Hempty. unfold _get_footprint, period_falsy.
  rewrite bool_decide_eq_false_2 by done.
  rewrite Hgeom. simpl. unfold geom_truthy. rewrite Hempty. simpl.
  eexists. split; [reflexivity|]. done.
Qed.

(** C4, as the code has it: the Reprojector returns absence when the
    summary is absent, when its [dataset_count] is zero, when it has no
    [footprint_geometry], or when that geometry is empty; otherwise it
    returns the footprint transformed into the display coordinate system. *)
Theorem reprojector_result (period : option TimePeriodOverview) w :
  (period = None -> (_get_footprint period w).1 = Ok None) /\
  (forall p, period = Some p -> dataset_count p = 0 ->
     (_get_footprint period w).1 = Ok None) /\
  (forall p, period = Some p -> footprint_geometry p = None ->
     (_get_footprint period w).1 = Ok None) /\
  (forall p g, period = Some p -> footprint_geometry p = Some g ->
     geom_is_empty g = true ->
     (_get_footprint period w).1 = Ok None) /\
  (forall p g, period = Some p -> dataset_count p ≠ 0 ->
     footprint_geometry p = Some g -> geom_is_empty g = false ->
     (_get_footprint period w).1 = Ok (Some (to_display (footprint_crs p) g))).
Proof.
  repeat split.
  - by intros ->.
  - intros p -> Hzero. rewrite _get_footprint_absent; [done|].
    left. simpl. by apply bool_decide_eq_true_2.
  - intros p -> Hnone. rewrite _get_footprint_absent; [done|].
    right. by rewrite Hnone.
  - intros p g -> Hgeom Hempty. rewrite _get_footprint_absent; [done|].
    right. rewrite Hgeom. simpl. unfold geom_truthy. by rewrite Hempty.
  - intros p g -> Hcount Hgeom Hempty.
    destruct (_get_footprint_present p g w Hcount Hgeom Hempty) as [w' [-> _]].
    done.
Qed.

(** *** Footprint Feature *)

(** C1, as the code has it: with a summary and a non-empty reprojected
    footprint, the result is a Feature around that footprint whose
    properties are exactly [dataset_count], the summary's [footprint_count];
    [product_name], the requested product; and [time_spec], the triple
    [year, month, day] with [None] for unset levels. *)
Theorem footprint_feature_properties (product_name : string)
    (year month day : option Z) w period w1 (footprint : G) w2 :
  get_summary product_name year month day w = (Ok (Some period), w1) ->
  _get_footprint (Some period) w1 = (Ok (Some footprint), w2) ->
  geom_is_empty footprint = false ->
  exists feature,
    get_footprint_geojson_uncached product_name year month day w
      = (Ok (Some feature), w2) /\
    py_getitem feature "type" = Some (PyStr "Feature") /\
    py_getitem feature "geometry" = Some (PyGeo (geo_interface footprint)) /\
    py_getitem feature "properties" = Some (PyDict
      [("dataset_count", PyInt (footprint_count period));
       ("product_name", PyStr product_name);
       ("time_spec", PyList [py_opt_int year; py_opt_int month; py_opt_int day])]).
Proof.
  intros Hsummary Hfootprint Hempty.
  exists (footprint_feature product_name year month day period footprint).
  split; [|done].
  unfold get_footprint_geojson_uncached.
  rewrite (bind_ok _ _ _ _ _ Hsummary).
  rewrite (bind_ok _ _ _ _ _ Hfootprint).
  simpl. unfold geom_truthy. by rewrite Hempty.
Qed.

(** What a call of the undecorated function can return. *)
Lemma get_footprint_geojson_uncached_cases (product_name : string)
    (year month day : option Z) w r w' :
  get_footprint_geojson_uncached product_name year month day w = (r, w') ->
  (exists e, r = Raise e) \/
  r = Ok None \/
  exists period (footprint : G),
    r = Ok (Some (footprint_feature product_name year month day period footprint)) /\
    geom_is_empty footprint = false.
Proof.
  unfold get_footprint_geojson_uncached, mbind, M_bind.
  destruct (get_summary product_name year month day w) as [[[p|]|e] w1];
    [|intros [= <- <-]; by right; left|intros [= <- <-]; left; by eexists].
  destruct (_get_footprint (Some p) w1) as [[[fp|]|e] w2]; simpl;
    [|intros [= <- <-]; by right; left|intros [= <- <-]; left; by eexists].
  unfold geom_truthy. destruct (geom_is_empty fp) eqn:Hempty; simpl.
  - intros [= <- <-]. by right; left.
  - intros [= <- <-]. right. right. by exists p, fp.
Qed.

(** *** Region collection: absence and failure *)

Lemma memoize_miss {V} `{!Cacheable V} (timeout : Z) fname args (f : M V) w :
  cache_get (w_cache w) (w_now w) (fname, args) = None ->
  memoize timeout fname args f w =
    (rv ← f; cache_set (fname, args) (to_cached rv) timeout;; mret rv) w.
Proof. intros Hmiss. unfold memoize. by rewrite Hmiss. Qed.

Lemma memoize_miss_raise {V} `{!Cacheable V} (timeout : Z) fname args (f : M V) w e w' :
  cache_get (w_cache w) (w_now w) (fname, args) = None ->
  f w = (Raise e, w') ->
  memoize timeout fname args f w = (Raise e, w').
Proof.
  intros Hmiss Hf. rewrite memoize_miss by done. by apply bind_raise.
Qed.

(** The undecorated function up to the product lookup. *)
Lemma get_regions_geojson_uncached_resolved (product_name : string)
    (year month day : option Z) w period w1 product s' :
  get_summary product_name year month day w = (Ok (Some period), w1) ->
  index_products_get_by_name product_name (w_store w1) = (Ok (Some product), s') ->
  get_regions_geojson_uncached product_name year month day w =
    (if negb (counter_truthy (region_dataset_counts period)) then mret None
     else
       match RegionInfo_for_product product with
       | None => mret None
       | Some region_info =>
         footprint_wrs84 ← _get_footprint (Some period);
         start ← time_time;
         regions ← lift (_get_regions_geojson (region_dataset_counts period)
                           footprint_wrs84 region_info);
         stop ← time_time;
         log "debug" "overview.region_gen" [("time_sec", AInt (stop - start))];;
         mret regions
       end)
    (set_store s' (add_trace
       (Backend "STORE.index.products.get_by_name" [AStr product_name]) w1)).
Proof.
  intros Hsummary Hproduct. unfold get_regions_geojson_uncached.
  rewrite (bind_ok _ _ _ _ _ Hsummary).
  erewrite bind_ok; cycle 1.
  { rewrite backend_run, Hproduct. reflexivity. }
  reflexivity.
Qed.

(** C7: a summary exists and the index does not know the product: the
    undecorated function raises [RuntimeError], and so does the memoised one
    when it has no fresh entry to answer from. *)
Theorem unknown_product_raises (product_name : string)
    (year month day : option Z) w period w1 s' :
  get_summary product_name year month day w = (Ok (Some period), w1) ->
  index_products_get_by_name product_name (w_store w1) = (Ok None, s') ->
  (get_regions_geojson_uncached product_name year month day w).1
    = Raise (RuntimeError "Unknown product despite having a summary?" [product_name]) /\
  (cache_get (w_cache w) (w_now w)
     ("get_regions_geojson", [AStr product_name; AOpt year; AOpt month; AOpt day]) = None ->
   (get_regions_geojson product_name year month day w).1
     = Raise (RuntimeError "Unknown product despite having a summary?" [product_name])).
Proof.
  intros Hsummary Hproduct.
  assert (exists w', get_regions_geojson_uncached product_name year month day w
    = (Raise (RuntimeError "Unknown product despite having a summary?" [product_name]), w'))
    as [w' Hraise].
  { eexists. unfold get_regions_geojson_uncached.
    rewrite (bind_ok _ _ _ _ _ Hsummary).
    erewrite bind_ok; cycle 1.
    { rewrite backend_run, Hproduct. reflexivity. }
    reflexivity. }
  split; [by rewrite Hraise|].
  intros Hmiss. unfold get_regions_geojson.
  by rewrite (memoize_miss_raise _ _ _ _ _ _ _ Hmiss Hraise).
Qed.

(** C6, as the code has it: the result is absence when there is no summary;
    and, once the index has resolved the product, when the summary's
    [region_dataset_counts] is empty, when the product has no region
    catalog, or when the catalog has no geometry function and there is no
    reprojected footprint. *)
Theorem regions_absent (product_name : string) (year month day : option Z) w :
  (forall w1,
     get_summary product_name year month day w = (Ok None, w1) ->
     get_regions_geojson_uncached product_name year month day w = (Ok None, w1)) /\
  (forall period w1 product s',
     get_summary product_name year month day w = (Ok (Some period), w1) ->
     index_products_get_by_name product_name (w_store w1) = (Ok (Some product), s') ->
     region_dataset_counts period = [] ->
     (get_regions_geojson_uncached product_name year month day w).1 = Ok None) /\
  (forall period w1 product s',
     get_summary product_name year month day w = (Ok (Some period), w1) ->
     index_products_get_by_name product_name (w_store w1) = (Ok (Some product), s') ->
     RegionInfo_for_product product = None ->
     (get_regions_geojson_uncached product_name year month day w).1 = Ok None) /\
  (forall period w1 product s' region_info,
     get_summary product_name year month day w = (Ok (Some period), w1) ->
     index_products_get_by_name product_name (w_store w1) = (Ok (Some product), s') ->
     RegionInfo_for_product product = Some region_info ->
     geographic_extent region_info = None ->
     period_falsy (Some period) = true \/
       opt_geom_truthy (footprint_geometry period) = false ->
     (get_regions_geojson_uncached product_name year month day w).1 = Ok None).
Proof.
  repeat split.
  - intros w1 Hsummary. unfold get_regions_geojson_uncached.
    by rewrite (bind_ok _ _ _ _ _ Hsummary).
  - intros period w1 product s' Hsummary Hproduct Hcounts.
    rewrite (get_regions_geojson_uncached_resolved _ _ _ _ _ _ _ _ _ Hsummary Hproduct).
    by rewrite Hcounts.
  - intros period w1 product s' Hsummary Hproduct Hinfo.
    rewrite (get_regions_geojson_uncached_resolved _ _ _ _ _ _ _ _ _ Hsummary Hproduct).
    rewrite Hinfo. by destruct (negb _).
  - intros period w1 product s' region_info Hsummary Hproduct Hinfo Hextent Hfootprint.
    rewrite (get_regions_geojson_uncached_resolved _ _ _ _ _ _ _ _ _ Hsummary Hproduct).
    rewrite Hinfo. destruct (negb _); [done|].
    erewrite bind_ok; [|by apply _get_footprint_absent].
    unfold _get_regions_geojson, _region_geometry_function. rewrite Hextent.
    done.
Qed.

(** *** Last-updated timestamp *)





(** *** The cache *)

#[local] Abbreviation MW := (@M G J DatasetType datetime DB).

Lemma keeps_clock_ret {A} (a : A) : keeps_clock (mret a : MW A).
Proof. by intros w. Qed.

Lemma keeps_clock_raise {A} e : keeps_clock (raise e : MW A).
Proof. by intros w. Qed.

Lemma keeps_clock_lift {A} (r : result A) : keeps_clock (lift r : MW A).
Proof. by intros w. Qed.

Lemma keeps_clock_bind {A B} (m : MW A) (f : A -> MW B) :
  keeps_clock m -> (forall a, keeps_clock (f a)) -> keeps_clock (m ≫= f).
Proof.
  intros Hm Hf w. unfold mbind, M_bind. specialize (Hm w).
  destruct (m w) as [[a|e] w']; simpl in *; [|done].
  by rewrite Hf.
Qed.

Lemma keeps_clock_backend {A} call args (op : DB -> result A * DB) :
  keeps_clock (backend call args op : MW A).
Proof. intros w. by rewrite backend_run. Qed.

Lemma keeps_clock_log level event fields : keeps_clock (log level event fields : MW unit).
Proof. by intros w. Qed.

Lemma keeps_clock_time_time : keeps_clock (time_time : MW Z).
Proof. by intros w. Qed.

Lemma keeps_clock_path_exists : keeps_clock (path_exists : MW bool).
Proof. by intros w. Qed.

Lemma keeps_clock_path_read_text : keeps_clock (path_read_text : MW string).
Proof. intros w. unfold path_read_text. by destruct (w_generated_txt w). Qed.

Lemma keeps_clock_cache_set key v timeout : keeps_clock (cache_set key v timeout : MW unit).
Proof. by intros w. Qed.

Lemma keeps_clock_memoize {V} `{!Cacheable V} timeout fname args (f : MW V) :
  keeps_clock f -> keeps_clock (memoize timeout fname args f).
Proof.
  intros Hf w. unfold memoize.
  destruct (cache_get _ _ _ ≫= of_cached); [done|].
  apply keeps_clock_bind; [done|]. intros rv.
  apply keeps_clock_bind; [apply keeps_clock_cache_set|].
  intros _. apply keeps_clock_ret.
Qed.

Lemma keeps_clock_mapM {A B} (f : A -> MW B) (l : list A) :
  (forall x, keeps_clock (f x)) -> keeps_clock (mapM f l).
Proof.
  intros Hf. induction l as [|x l IH]; [apply keeps_clock_ret|].
  simpl. apply keeps_clock_bind; [done|]. intros y.
  apply keeps_clock_bind; [done|]. intros k. apply keeps_clock_ret.
Qed.

Create HintDb clock.
#[local] Hint Resolve keeps_clock_ret keeps_clock_raise keeps_clock_lift
  keeps_clock_backend keeps_clock_log keeps_clock_time_time
  keeps_clock_path_exists keeps_clock_path_read_text keeps_clock_cache_set
  keeps_clock_memoize keeps_clock_mapM : clock.

Ltac clock :=
  repeat first
    [ progress auto with clock
    | apply keeps_clock_bind; [|intros ?]
    | match goal with
      | |- keeps_clock (match ?x with _ => _ end) => destruct x
      | |- keeps_clock (if ?b then _ else _) => destruct b
      end ].

Lemma keeps_clock_get_summary_uncached product_name year month day :
  keeps_clock (get_summary_uncached product_name year month day).
Proof. unfold get_summary_uncached. clock. Qed.

Lemma keeps_clock_get_summary product_name year month day :
  keeps_clock (get_summary product_name year month day).
Proof.
  apply keeps_clock_memoize, keeps_clock_get_summary_uncached.
Qed.

Lemma keeps_clock_get_datasets_geojson_uncached product_name year month day limit :
  keeps_clock (get_datasets_geojson_uncached product_name year month day limit).
Proof. unfold get_datasets_geojson_uncached. clock. Qed.

Lemma keeps_clock_get_last_updated_uncached (SUMMARIES_DIR : string) :
  keeps_clock (get_last_updated_uncached dateutil_parser_parse SUMMARIES_DIR).
Proof. unfold get_last_updated_uncached. clock. Qed.

Lemma keeps_clock_get_products_with_summaries_uncached :
  keeps_clock get_products_with_summaries_uncached.
Proof.
  unfold get_products_with_summaries_uncached.
  apply keeps_clock_bind; [clock|]. intros all.
  apply keeps_clock_bind; [clock|]. intros complete.
  apply keeps_clock_bind; [|intros [|]; clock].
  apply keeps_clock_mapM. intros product_name.
  destruct (_ !! _); [|clock].
  apply keeps_clock_bind; [apply keeps_clock_get_summary|]. clock.
Qed.

(** A fresh entry answers the call. *)
Lemma memoize_hit {V} `{!Cacheable V} timeout fname args (f : MW V) w e v :
  w_cache w !! (fname, args) = Some e ->
  w_now w < expires e ->
  cached e = to_cached v ->
  memoize timeout fname args f w = (Ok v, w).
Proof.
  intros Hentry Hfresh Hvalue. unfold memoize, cache_get.
  rewrite Hentry, bool_decide_eq_true_2 by done. simpl.
  by rewrite Hvalue, of_to_cached.
Qed.

(** A computing call stores what it returns, for the time-to-live. *)
Lemma memoize_miss_stores {V} `{!Cacheable V} timeout fname args (f : MW V) w v w1 :
  keeps_clock f ->
  cache_get (w_cache w) (w_now w) (fname, args) = None ->
  memoize timeout fname args f w = (Ok v, w1) ->
  w_cache w1 !! (fname, args)
    = Some {| expires := w_now w + timeout; cached := to_cached v |}.
Proof.
  intros Hclock Hmiss. rewrite memoize_miss by done.
  unfold mbind, M_bind. specialize (Hclock w).
  destruct (f w) as [[rv|e] w']; [|done]. simpl in *.
  intros [= -> <-]. simpl. rewrite Hclock. apply lookup_insert_eq.
Qed.

Lemma memoize_idempotent {V} `{!Cacheable V} timeout fname args (f : MW V) :
  keeps_clock f ->
  cache_idempotent (memoize timeout fname args f) (fname, args) timeout f.
Proof.
  intros Hclock w v w1 w2 Hmiss Hrun Hcache.
  pose proof (memoize_miss_stores _ _ _ _ _ _ _ Hclock Hmiss Hrun) as Hentry.
  rewrite <- Hcache in Hentry. split.
  - intros Hwithin. by eapply memoize_hit.
  - intros Hexpired. apply memoize_miss. unfold cache_get.
    rewrite Hentry. simpl. by rewrite bool_decide_eq_false_2 by lia.
Qed.

(** C9: each of the four cached queries, under the memoising decorator as
    section 4.1 describes it: after a call that computed a value, a call
    with the same arguments on the same cache less than the time-to-live
    later (60 seconds for the summary and the dataset footprints, 120 for
    the last-updated timestamp and the product list) returns the same value
    without touching the backend or the trace; from the expiry on, the call
    runs the query again. *)
Theorem cached_queries_idempotent (SUMMARIES_DIR : string) :
  (forall product_name year month day,
     cache_idempotent (get_summary product_name year month day)
       ("get_summary", [AStr product_name; AOpt year; AOpt month; AOpt day]) 60
       (get_summary_uncached product_name year month day)) /\
  (forall product_name year month day limit,
     cache_idempotent (get_datasets_geojson product_name year month day limit)
       ("get_datasets_geojson",
        [AStr product_name; AOpt year; AOpt month; AOpt day; AInt limit]) 60
       (get_datasets_geojson_uncached product_name year month day limit)) /\
  cache_idempotent (get_last_updated dateutil_parser_parse SUMMARIES_DIR)
    ("get_last_updated", []) 120
    (get_last_updated_uncached dateutil_parser_parse SUMMARIES_DIR) /\
  cache_idempotent get_products_with_summaries
    ("get_products_with_summaries", []) 120
    get_products_with_summaries_uncached.
Proof.
  split; [|split; [|split]].
  - intros product_name year month day.
    apply memoize_idempotent, keeps_clock_get_summary_uncached.
  - intros product_name year month day limit.
    apply memoize_idempotent, keeps_clock_get_datasets_geojson_uncached.
  - apply memoize_idempotent, keeps_clock_get_last_updated_uncached.
  - apply memoize_idempotent, keeps_clock_get_products_with_summaries_uncached.
Qed.

(** *** The footprint Feature through the cache *)

(** A memoised call answers from an entry, or runs the function and keeps
    what it returns. *)
Lemma memoize_cases {V} `{!Cacheable V} timeout fname args (f : MW V) w r w' :
  memoize timeout fname args f w = (r, w') ->
  (exists e v,
     w_cache w !! (fname, args) = Some e /\ of_cached (cached e) = Some v /\
     r = Ok v /\ w' = w) \/
  (exists wb,
     (exists v,
        f w = (Ok v, wb) /\ r = Ok v /\
        w' = set_cache (<[(fname, args) :=
               {| expires := w_now wb + timeout; cached := to_cached v |}]>
               (w_cache wb)) wb) \/
     (exists e, f w = (Raise e, wb) /\ r = Raise e /\ w' = wb)).
Proof.
  unfold memoize, cache_get.
  destruct (w_cache w !! (fname, args)) as [e|] eqn:Hentry; simpl.
  - destruct (bool_decide _); simpl.
    + destruct (of_cached (cached e)) as [v|] eqn:Hv.
      * intros [= <- <-]. left. by exists e, v.
      * unfold mbind, M_bind. destruct (f w) as [[v|e'] wb]; intros [= <- <-];
          right; exists wb; [left|right]; eauto.
    + unfold mbind, M_bind. destruct (f w) as [[v|e'] wb]; intros [= <- <-];
        right; exists wb; [left|right]; eauto.
  - unfold mbind, M_bind. destruct (f w) as [[v|e'] wb]; intros [= <- <-];
      right; exists wb; [left|right]; eauto.
Qed.

Lemma backend_cache {A} call args (op : DB -> result A * DB) w :
  w_cache ((backend call args op : MW A) w).2 = w_cache w.
Proof. by rewrite backend_run. Qed.

Lemma get_summary_uncached_cache product_name year month day w :
  w_cache (get_summary_uncached product_name year month day w).2 = w_cache w.
Proof.
  unfold get_summary_uncached. destruct (bool_decide _); apply backend_cache.
Qed.

Lemma get_summary_cache_other product_name year month day w r w1 (key : Key) :
  get_summary product_name year month day w = (r, w1) ->
  key.1 ≠ "get_summary" ->
  w_cache w1 !! key = w_cache w !! key.
Proof.
  intros Hrun Hkey. pose proof (get_summary_uncached_cache product_name year month day w)
    as Hbody.
  apply memoize_cases in Hrun
    as [(e & v & _ & _ & _ & ->)|(wb & [(v & Hf & _ & ->)|(e & Hf & _ & ->)])];
    [done| |]; rewrite Hf in Hbody; simpl in *; [|by rewrite Hbody].
  rewrite lookup_insert_ne; [by rewrite Hbody|].
  intros <-. by apply Hkey.
Qed.

Lemma _get_footprint_cache (period : option TimePeriodOverview) w :
  w_cache (_get_footprint period w).2 = w_cache w.
Proof.
  unfold _get_footprint. destruct period as [p|]; [|done].
  destruct (period_falsy _); [done|].
  destruct (negb _); [done|].
  by destruct (footprint_geometry p).
Qed.

Lemma get_footprint_geojson_uncached_cache_other product_name year month day
    w r w' (key : Key) :
  get_footprint_geojson_uncached product_name year month day w = (r, w') ->
  key.1 ≠ "get_summary" ->
  w_cache w' !! key = w_cache w !! key.
Proof.
  unfold get_footprint_geojson_uncached, mbind, M_bind. intros Hrun Hkey.
  destruct (get_summary product_name year month day w) as [[[p|]|e] w1] eqn:Hsummary;
    try (injection Hrun as _ <-; by eapply get_summary_cache_other).
  pose proof (_get_footprint_cache (Some p) w1) as Hfp.
  destruct (_get_footprint (Some p) w1) as [[fp|e] w2]; simpl in *.
  - assert (w' = w2) as ->.
    { destruct (negb _); [by injection Hrun|]. destruct fp; by injection Hrun. }
    rewrite Hfp. by eapply get_summary_cache_other.
  - injection Hrun as _ <-. rewrite Hfp. by eapply get_summary_cache_other.
Qed.

Lemma get_footprint_geojson_entries product_name year month day w r w' :
  footprint_entries_nonempty (w_cache w) ->
  get_footprint_geojson product_name year month day w = (r, w') ->
  footprint_entries_nonempty (w_cache w') /\
  forall feature, r = Ok (Some feature) -> nonempty_footprint_feature feature.
Proof.
  intros Hinv Hrun.
  apply memoize_cases in Hrun
    as [(e & v & Hentry & Hv & -> & ->)|(wb & [(v & Hf & -> & ->)|(e & Hf & -> & ->)])].
  - split; [done|]. intros feature [= ->].
    eapply Hinv; [done|]. simpl in Hv. by destruct (cached e); simplify_eq.
  - assert (footprint_entries_nonempty (w_cache wb)) as Hinvb.
    { intros args e feature Hentry. eapply Hinv.
      by rewrite <- (get_footprint_geojson_uncached_cache_other _ _ _ _ _ _ _ _ Hf). }
    assert (forall feature, v = Some feature -> nonempty_footprint_feature feature)
      as Hvalue.
    { intros feature ->.
      apply get_footprint_geojson_uncached_cases in Hf
        as [[e ?]|[?|(period & footprint & [= ->] & Hempty)]]; [done..|].
      by exists product_name, year, month, day, period, footprint. }
    split; [|intros feature [= ->]; by apply Hvalue].
    intros args e feature. simpl.
    destruct (decide (args = [AStr product_name; AOpt year; AOpt month; AOpt day]))
      as [->|Hne].
    + rewrite lookup_insert_eq. intros [= <-]. simpl. intros [= ->]. by apply Hvalue.
    + rewrite lookup_insert_ne by congruence. apply Hinvb.
  - split; [|done]. intros args e' feature Hentry. eapply Hinv.
    by rewrite <- (get_footprint_geojson_uncached_cache_other _ _ _ _ _ _ _ _ Hf).
Qed.
(** C10: without a footprint geometry in the summary, and with an empty
    reprojected footprint, the decorated body returns absence; every Feature
    it returns is built around a non-empty geometry; and the memoised
    function, on a cache whose footprint Features are non-empty, returns
    only such Features and leaves such a cache. *)
Theorem footprint_feature_never_empty (product_name : string)
    (year month day : option Z) w :
  (forall period w1,
     get_summary product_name year month day w = (Ok (Some period), w1) ->
     footprint_geometry period = None ->
     get_footprint_geojson_uncached product_name year month day w = (Ok None, w1)) /\
  (forall period w1 (footprint : G) w2,
     get_summary product_name year month day w = (Ok (Some period), w1) ->
     _get_footprint (Some period) w1 = (Ok (Some footprint), w2) ->
     geom_is_empty footprint = true ->
     get_footprint_geojson_uncached product_name year month day w = (Ok None, w2)) /\
  (forall feature w',
     get_footprint_geojson_uncached product_name year month day w
       = (Ok (Some feature), w') ->
     exists period (footprint : G),
       feature = footprint_feature product_name year month day period footprint /\
       py_getitem feature "geometry" = Some (PyGeo (geo_interface footprint)) /\
       geom_is_empty footprint = false) /\
  (forall r w',
     footprint_entries_nonempty (w_cache w) ->
     get_footprint_geojson product_name year month day w = (r, w') ->
     footprint_entries_nonempty (w_cache w') /\
     forall feature, r = Ok (Some feature) -> nonempty_footprint_feature feature).
Proof.
  split; [|split; [|split]].
  - intros period w1 Hsummary Hnone. unfold get_footprint_geojson_uncached.
    rewrite (bind_ok _ _ _ _ _ Hsummary).
    erewrite bind_ok; [|apply _get_footprint_absent; right; by rewrite Hnone].
    done.
  - intros period w1 footprint w2 Hsummary Hfootprint Hempty.
    unfold get_footprint_geojson_uncached.
    rewrite (bind_ok _ _ _ _ _ Hsummary).
    rewrite (bind_ok _ _ _ _ _ Hfootprint).
    simpl. unfold geom_truthy. by rewrite Hempty.
  - intros feature w' Hrun.
    apply get_footprint_geojson_uncached_cases in Hrun
      as [[e ?]|[?|(period & footprint & [= ->] & Hempty)]]; [done..|].
    by exists period, footprint.
  - intros r w'. apply get_footprint_geojson_entries.
Qed.



End Properties.

(** ** The theorems on the concrete instance *)

Lemma region_off_boundary_unchanged_witness :
  exists cut,
    _region_geometry_function Demo.demo_regions (Some Demo.demo_footprint) = Some cut /\
    cut "r1" = Ok (Demo.demo_extent "r1").
Proof.
  apply (region_off_boundary_unchanged Demo.demo_regions Demo.demo_footprint
           Demo.demo_extent "r1").
  - reflexivity.
  - vm_compute. reflexivity.
Defined.

Lemma region_on_boundary_clipped_witness :
  exists cut,
    _region_geometry_function Demo.demo_regions (Some Demo.demo_footprint) = Some cut /\
    cut "r2" = Ok (geom_intersection Demo.demo_footprint (Demo.demo_extent "r2")) /\
    geom_within (geom_intersection Demo.demo_footprint (Demo.demo_extent "r2"))
      (Demo.demo_extent "r2").
Proof.
  apply (region_on_boundary_clipped Demo.demo_regions Demo.demo_footprint
           Demo.demo_extent "r2").
  - reflexivity.
  - vm_compute. reflexivity.
Defined.

Lemma regions_collection_counts_witness :
  exists region_geometry low high features,
    _region_geometry_function Demo.demo_regions (Some Demo.demo_footprint)
      = Some region_geometry /\
    _get_regions_geojson [("A", 2); ("B", 5); ("C", 5)] (Some Demo.demo_footprint)
        Demo.demo_regions =
      Ok (Some (PyDict
        [("type", PyStr "FeatureCollection");
         ("properties", PyDict
            [("region_type", PyStr (name Demo.demo_regions));
             ("region_unit_label", PyStr (unit_label Demo.demo_regions));
             ("min_count", PyInt low);
             ("max_count", PyInt high)]);
         ("features", PyList features)])) /\
    is_minimum low (counter_values [("A", 2); ("B", 5); ("C", 5)]) /\
    is_maximum high (counter_values [("A", 2); ("B", 5); ("C", 5)]) /\
    Forall2 (fun item feature => exists g,
               region_geometry item.1 = Ok g /\
               feature = region_feature_of Demo.demo_regions item g)
      [("A", 2); ("B", 5); ("C", 5)] features.
Proof.
  apply (regions_collection_counts [("A", 2); ("B", 5); ("C", 5)]
           (Some Demo.demo_footprint) Demo.demo_regions Demo.demo_extent).
  - discriminate.
  - unfold counter_wf. apply (bool_decide_unpack _). vm_compute. reflexivity.
  - reflexivity.
Defined.

(** The example of the specification: counts [{A: 2, B: 5, C: 5}]. *)
Example regions_collection_min_max :
  match _get_regions_geojson [("A", 2); ("B", 5); ("C", 5)]
          (Some Demo.demo_footprint) Demo.demo_regions with
  | Ok (Some collection) =>
      (feature_property collection "min_count",
       feature_property collection "max_count")
  | _ => (None, None)
  end = (Some (PyInt 2), Some (PyInt 5)).
Proof. vm_compute. reflexivity. Qed.

Lemma reprojector_result_witness :
  (_get_footprint None Demo.world0).1 = Ok None /\
  (_get_footprint (Some Demo.hollow) Demo.world0).1 = Ok None /\
  (_get_footprint (Some Demo.flat) Demo.world0).1 = Ok None /\
  (_get_footprint (Some Demo.demo_scene) Demo.world0).1 = Ok (Some Demo.demo_footprint).
Proof.
  split; [|split; [|split]].
  - by apply (reprojector_result None Demo.world0).
  - destruct (reprojector_result (Some Demo.hollow) Demo.world0) as (_ & _ & _ & H & _).
    apply (H Demo.hollow ∅); reflexivity.
  - destruct (reprojector_result (Some Demo.flat) Demo.world0) as (_ & _ & H & _).
    apply (H Demo.flat); reflexivity.
  - destruct (reprojector_result (Some Demo.demo_scene) Demo.world0) as (_ & _ & _ & _ & H).
    apply (H Demo.demo_scene (Demo.rect 0 0 6 6)); [reflexivity|discriminate|reflexivity|].
    vm_compute. reflexivity.
Defined.

(** A summary with datasets and a present, empty footprint geometry: the
    Reprojector returns absence, not the transformed footprint. *)
Lemma reprojector_empty_geometry_counterexample :
  dataset_count Demo.hollow ≠ 0 /\
  footprint_geometry Demo.hollow = Some ∅ /\
  (_get_footprint (Some Demo.hollow) Demo.world0).1 = Ok None /\
  (_get_footprint (Some Demo.hollow) Demo.world0).1
    ≠ Ok (Some (to_display (footprint_crs Demo.hollow) ∅)).
Proof. split; [|split; [|split]]; [discriminate|reflexivity|reflexivity|discriminate]. Qed.

Lemma footprint_feature_properties_witness :
  exists feature,
    get_footprint_geojson_uncached "demo_scene" (Some 2018) (Some 3) None Demo.world0
      = (Ok (Some feature),
         (_get_footprint (Some Demo.demo_scene)
            (get_summary "demo_scene" (Some 2018) (Some 3) None Demo.world0).2).2) /\
    py_getitem feature "type" = Some (PyStr "Feature") /\
    py_getitem feature "geometry" = Some (PyGeo (geo_interface Demo.demo_footprint)) /\
    py_getitem feature "properties" = Some (PyDict
      [("dataset_count", PyInt 2);
       ("product_name", PyStr "demo_scene");
       ("time_spec", PyList [PyInt 2018; PyInt 3; PyNone])]).
Proof.
  apply (footprint_feature_properties "demo_scene" (Some 2018) (Some 3) None
           Demo.world0 Demo.demo_scene
           (get_summary "demo_scene" (Some 2018) (Some 3) None Demo.world0).2
           Demo.demo_footprint).
  - vm_compute. reflexivity.
  - vm_compute. reflexivity.
  - vm_compute. reflexivity.
Defined.

(** The summary of "demo_scene" counts 3 datasets, 2 of them in the
    footprint: the Feature's [dataset_count] is 2. *)
Lemma footprint_dataset_count_counterexample :
  (get_summary "demo_scene" None None None Demo.world0).1 = Ok (Some Demo.demo_scene) /\
  dataset_count Demo.demo_scene = 3 /\
  (get_footprint_geojson "demo_scene" None None None Demo.world0).1
    = Ok (Some (footprint_feature "demo_scene" None None None Demo.demo_scene
                  Demo.demo_footprint)) /\
  feature_property
    (footprint_feature "demo_scene" None None None Demo.demo_scene Demo.demo_footprint)
    "dataset_count" = Some (PyInt 2) /\
  feature_property
    (footprint_feature "demo_scene" None None None Demo.demo_scene Demo.demo_footprint)
    "dataset_count" ≠ Some (PyInt (dataset_count Demo.demo_scene)).
Proof.
  split; [|split; [|split; [|split]]].
  - vm_compute. reflexivity.
  - reflexivity.
  - vm_compute. reflexivity.
  - reflexivity.
  - discriminate.
Qed.

Lemma unknown_product_raises_witness :
  (get_regions_geojson_uncached "ghost" None None None Demo.world0).1
    = Raise (RuntimeError "Unknown product despite having a summary?" ["ghost"]) /\
  (get_regions_geojson "ghost" None None None Demo.world0).1
    = Raise (RuntimeError "Unknown product despite having a summary?" ["ghost"]).
Proof.
  destruct (unknown_product_raises "ghost" None None None Demo.world0 Demo.ghost
              (get_summary "ghost" None None None Demo.world0).2 2%nat) as [Hbody Hmemo].
  - vm_compute. reflexivity.
  - vm_compute. reflexivity.
  - split; [exact Hbody|]. apply Hmemo. vm_compute. reflexivity.
Defined.

(** "ghost" has a summary with an empty [region_dataset_counts] and is not
    in the index: the call raises, it does not return absence. *)
Lemma regions_absent_counterexample :
  (get_summary "ghost" None None None Demo.world0).1 = Ok (Some Demo.ghost) /\
  region_dataset_counts Demo.ghost = [] /\
  (get_regions_geojson "ghost" None None None Demo.world0).1 ≠ Ok None /\
  (get_regions_geojson "ghost" None None None Demo.world0).1
    = Raise (RuntimeError "Unknown product despite having a summary?" ["ghost"]).
Proof.
  split; [|split; [|split]].
  - vm_compute. reflexivity.
  - reflexivity.
  - vm_compute. discriminate.
  - vm_compute. reflexivity.
Qed.

Lemma regions_absent_witness :
  get_regions_geojson_uncached "nothing" None None None Demo.world0
    = (Ok None, (get_summary "nothing" None None None Demo.world0).2) /\
  (get_regions_geojson_uncached "hollow" None None None Demo.world0).1 = Ok None /\
  (get_regions_geojson_uncached "faraway" None None None Demo.world0).1 = Ok None /\
  (get_regions_geojson_uncached "flat" None None None Demo.world0).1 = Ok None.
Proof.
  split; [|split; [|split]].
  - destruct (regions_absent "nothing" None None None Demo.world0) as (H & _).
    apply H. vm_compute. reflexivity.
  - destruct (regions_absent "hollow" None None None Demo.world0) as (_ & H & _).
    apply (H Demo.hollow (get_summary "hollow" None None None Demo.world0).2
             "hollow" 2%nat); vm_compute; reflexivity.
  - destruct (regions_absent "faraway" None None None Demo.world0) as (_ & _ & H & _).
    apply (H Demo.faraway (get_summary "faraway" None None None Demo.world0).2
             "faraway" 2%nat); vm_compute; reflexivity.
  - destruct (regions_absent "flat" None None None Demo.world0) as (_ & _ & _ & H).
    apply (H Demo.flat (get_summary "flat" None None None Demo.world0).2
             "flat" 2%nat Demo.shapeless_regions);
      [vm_compute; reflexivity..|].
    right. reflexivity.
Defined.

(** "bare" has a footprint and a catalog without geometry function: the
    call raises [TypeError]. *)
Example regions_without_geometry_function_raise :
  (get_regions_geojson "bare" None None None Demo.world0).1
    = Raise (TypeError "'NoneType' object is not callable").
Proof. vm_compute. reflexivity. Qed.

(** The end-to-end scenario of the specification: two regions, counts 1 and
    2. *)
Example demo_scene_regions :
  match (get_regions_geojson "demo_scene" None None None Demo.world0).1 with
  | Ok (Some collection) =>
      (feature_property collection "min_count",
       feature_property collection "max_count",
       feature_property collection "region_type",
       match py_getitem collection "features" with
       | Some (PyList features) => Some (length features)
       | _ => None
       end)
  | _ => (None, None, None, None)
  end = (Some (PyInt 1), Some (PyInt 2), Some (PyStr "tiles"), Some 2%nat).
Proof. vm_compute. reflexivity. Qed.



(** The backend answers 0, then 1: within 120 seconds the cached 0 is
    returned and the world is left alone; at 120 seconds the backend is asked
    again. *)
Lemma cached_queries_idempotent_witness :
  let w1 := (get_last_updated Demo.demo_parse Demo.summaries_dir Demo.world0).2 in
  get_last_updated Demo.demo_parse Demo.summaries_dir Demo.world0 = (Ok 0, w1) /\
  get_last_updated Demo.demo_parse Demo.summaries_dir (Demo.later 119 w1) = (Ok 0, Demo.later 119 w1) /\
  (get_last_updated Demo.demo_parse Demo.summaries_dir (Demo.later 120 w1)).1 = Ok 1 /\
  let s1 := (get_summary "demo_scene" None None None Demo.world0).2 in
  get_summary "demo_scene" None None None (Demo.later 59 s1)
    = (Ok (Some Demo.demo_scene), Demo.later 59 s1).
Proof.
  destruct (cached_queries_idempotent Demo.demo_parse Demo.summaries_dir)
    as (Hsummary & _ & Hupdated & _).
  split; [vm_compute; reflexivity|]. split; [|split].
  - apply (Hupdated Demo.world0 0
             (get_last_updated Demo.demo_parse Demo.summaries_dir Demo.world0).2);
      vm_compute; reflexivity.
  - destruct (Hupdated Demo.world0 0
                (get_last_updated Demo.demo_parse Demo.summaries_dir Demo.world0).2
                (Demo.later 120 (get_last_updated Demo.demo_parse Demo.summaries_dir Demo.world0).2))
      as [_ Hexpired]; [vm_compute; reflexivity..|].
    rewrite Hexpired; [vm_compute; reflexivity|]. vm_compute. discriminate.
  - apply (Hsummary "demo_scene" None None None Demo.world0 (Some Demo.demo_scene)
             (get_summary "demo_scene" None None None Demo.world0).2);
      vm_compute; reflexivity.
Defined.

Lemma footprint_feature_never_empty_witness :
  (get_footprint_geojson_uncached "flat" None None None Demo.world0).1 = Ok None /\
  (get_footprint_geojson_uncached "faraway" None None None Demo.world0).1 = Ok None /\
  (exists period footprint,
     footprint_feature "demo_scene" None None None Demo.demo_scene Demo.demo_footprint
       = footprint_feature "demo_scene" None None None period footprint /\
     py_getitem
       (footprint_feature "demo_scene" None None None Demo.demo_scene Demo.demo_footprint)
       "geometry" = Some (PyGeo (geo_interface footprint)) /\
     geom_is_empty footprint = false) /\
  (forall feature,
     (get_footprint_geojson "demo_scene" None None None Demo.world0).1
       = Ok (Some feature) ->
     nonempty_footprint_feature feature).
Proof.
  split; [|split; [|split]].
  - destruct (footprint_feature_never_empty "flat" None None None Demo.world0)
      as (H & _).
    rewrite (H Demo.flat (get_summary "flat" None None None Demo.world0).2);
      [reflexivity|vm_compute; reflexivity|reflexivity].
  - destruct (footprint_feature_never_empty "faraway" None None None Demo.world0)
      as (_ & H & _).
    rewrite (H Demo.faraway (get_summary "faraway" None None None Demo.world0).2
               ∅ (_get_footprint (Some Demo.faraway)
                    (get_summary "faraway" None None None Demo.world0).2).2);
      [reflexivity|vm_compute; reflexivity..].
  - destruct (footprint_feature_never_empty "demo_scene" None None None Demo.world0)
      as (_ & _ & H & _).
    apply (H _ (get_footprint_geojson_uncached "demo_scene" None None None
                  Demo.world0).2).
    vm_compute. reflexivity.
  - destruct (footprint_feature_never_empty "demo_scene" None None None Demo.world0)
      as (_ & _ & _ & H).
    intros feature Hrun.
    destruct (H (get_footprint_geojson "demo_scene" None None None Demo.world0).1
                (get_footprint_geojson "demo_scene" None None None Demo.world0).2)
      as [_ Hfeature].
    + intros args e f Hentry. vm_compute in Hentry. discriminate.
    + by destruct (get_footprint_geojson _ _ _ _ _).
    + by apply Hfeature.
Defined.

(** ** Further properties of the module *)

Section Further.

Set Default Proof Using "Type".

Context {G Pt J : Type} `{!Shapely G Pt J} `{!Pyproj Pt}.
Context {DatasetType datetime DB : Type}.
Context {store : @SummaryStore G J DatasetType datetime DB}.
Variable dateutil_parser_parse : string -> result datetime.

Implicit Types (w : @World G J DatasetType datetime DB).
Implicit Types (period : @TimePeriodOverview G) (region_info : @RegionInfo G).

#[local] Abbreviation MF := (@M G J DatasetType datetime DB).

(** *** The reprojected footprint as a value *)

(** [_get_footprint] computes [display_footprint]; it leaves store, cache,
    clock and override file alone and only writes log records. *)
Lemma _get_footprint_run period w :
  exists logs,
    _get_footprint (Some period) w =
      (Ok (display_footprint period),
       mkWorld (w_store w) (w_cache w) (w_now w) (w_generated_txt w)
         (w_trace w ++ logs)) /\
    Forall is_log_record logs.
Proof.
  unfold _get_footprint, display_footprint, period_falsy.
  destruct w as [st c now txt tr]. simpl.
  destruct (bool_decide (dataset_count period = 0)).
  { exists []. by rewrite app_nil_r. }
  destruct (footprint_geometry period) as [g|]; simpl;
    [|exists []; by rewrite app_nil_r].
  unfold geom_truthy. destruct (geom_is_empty g); simpl.
  { exists []. by rewrite app_nil_r. }
  eexists [_; _]. split.
  - unfold mbind, M_bind, time_time, log, add_trace, mret, M_ret. simpl.
    rewrite <- app_assoc. reflexivity.
  - repeat constructor.
Qed.

(** X1: a Feature is returned exactly when the summary has datasets and a
    non-empty footprint whose reprojection is non-empty; the Feature is then
    built around that reprojection. *)
Theorem footprint_feature_iff (product_name : string)
    (year month day : option Z) w period w1 (feature : pyval J) :
  get_summary product_name year month day w = (Ok (Some period), w1) ->
  (get_footprint_geojson_uncached product_name year month day w).1
      = Ok (Some feature) <->
  exists g,
    dataset_count period ≠ 0 /\
    footprint_geometry period = Some g /\
    geom_is_empty g = false /\
    geom_is_empty (to_display (footprint_crs period) g) = false /\
    feature = footprint_feature product_name year month day period
                (to_display (footprint_crs period) g).
Proof.
  intros Hsummary. unfold get_footprint_geojson_uncached.
  rewrite (bind_ok _ _ _ _ _ Hsummary).
  destruct (_get_footprint_run period w1) as [logs [Hrun _]].
  rewrite (bind_ok _ _ _ _ _ Hrun). unfold display_footprint.
  destruct (bool_decide_reflect (dataset_count period = 0)) as [Hzero|Hcount]; simpl.
  { split; [done|]. by intros (g & Hne & _). }
  destruct (footprint_geometry period) as [g|]; simpl;
    [|split; [done|]; by intros (g & _ & [=] & _)].
  destruct (geom_is_empty g) eqn:Hempty; simpl.
  { split; [done|]. intros (g' & _ & [= <-] & Hg' & _). congruence. }
  unfold geom_truthy.
  destruct (geom_is_empty (to_display _ g)) eqn:Hdisplay; simpl.
  - split; [done|]. intros (g' & _ & [= <-] & _ & Hg' & _). congruence.
  - split.
    + intros [= <-]. by exists g.
    + by intros (g' & _ & [= <-] & _ & _ & ->).
Qed.

(** X2: past the fetch of the summary, building the footprint Feature asks
    the backend nothing: store, cache and clock stay as the summary query
    left them and the trace gains log records only. *)
Theorem footprint_feature_no_backend (product_name : string)
    (year month day : option Z) w rs w1 :
  get_summary product_name year month day w = (rs, w1) ->
  let w' := (get_footprint_geojson_uncached product_name year month day w).2 in
  w_store w' = w_store w1 /\ w_cache w' = w_cache w1 /\ w_now w' = w_now w1 /\
  exists logs, w_trace w' = (w_trace w1 ++ logs)%list /\ Forall is_log_record logs.
Proof.
  intros Hsummary. unfold get_footprint_geojson_uncached.
  assert (w_trace w1 = (w_trace w1 ++ [])%list) as Hnil by (by rewrite app_nil_r).
  destruct rs as [[period|]|e].
  - rewrite (bind_ok _ _ _ _ _ Hsummary).
    destruct (_get_footprint_run period w1) as [logs [Hrun Hlogs]].
    rewrite (bind_ok _ _ _ _ _ Hrun).
    destruct (negb _); [simpl; eauto 10|].
    destruct (display_footprint period); simpl; eauto 10.
  - rewrite (bind_ok _ _ _ _ _ Hsummary). simpl. eauto 10.
  - rewrite (bind_raise _ _ _ _ _ Hsummary). simpl. eauto 10.
Qed.

(** *** Last-updated: exceptions other than [ValueError] *)


(** *** Region collections *)

Lemma region_geometry_function_clipped region_info (footprint : option G)
    (extent : string -> G) :
  geographic_extent region_info = Some extent ->
  exists region_geometry,
    _region_geometry_function region_info footprint = Some region_geometry /\
    forall region_code,
      region_geometry region_code = Ok (clipped footprint (extent region_code)).
Proof.
  intros Hextent. unfold _region_geometry_function. rewrite Hextent.
  destruct footprint as [fp|]; (eexists; split; [reflexivity|]); intros region_code.
  - unfold region_geometry_cut, clipped. simpl.
    by destruct (prepared_intersects _ _).
  - done.
Qed.

Lemma mapM_features_clipped region_info (region_counts all : Counter)
    (region_geometry : string -> result G) (geometry : string -> G) :
  counter_wf all ->
  (forall item, item ∈ region_counts -> item ∈ all) ->
  (forall region_code, region_geometry region_code = Ok (geometry region_code)) ->
  mapM (region_feature region_info all region_geometry) (counter_keys region_counts)
    = Ok ((fun item => region_feature_of region_info item (geometry item.1))
            <$> region_counts).
Proof.
  intros Hwf Hsub Hgeometry. induction region_counts as [|[k n] c IH]; [done|].
  unfold counter_keys in IH |- *. rewrite fmap_cons. apply mapM_result_cons.
  - apply (region_feature_ok region_info all region_geometry (k, n));
      [done|apply Hsub, list_elem_of_here|apply Hgeometry].
  - apply IH. intros item Hitem. by apply Hsub, list_elem_of_further.
Qed.

(** The collection, for a non-empty mapping and a catalog with a geometry
    function. *)
Lemma _get_regions_geojson_clipped (region_counts : Counter)
    (footprint : option G) region_info (extent : string -> G) :
  region_counts ≠ [] ->
  counter_wf region_counts ->
  geographic_extent region_info = Some extent ->
  exists low high,
    is_minimum low (counter_values region_counts) /\
    is_maximum high (counter_values region_counts) /\
    _get_regions_geojson region_counts footprint region_info =
      Ok (Some (region_collection region_info low high
        ((fun item => region_feature_of region_info item
                        (clipped footprint (extent item.1))) <$> region_counts))).
Proof.
  intros Hne Hwf Hextent.
  destruct (region_geometry_function_clipped region_info footprint extent Hextent)
    as [region_geometry [Hfun Hgeometry]].
  assert (counter_values region_counts ≠ []) as Hvalues
    by (unfold counter_values; by destruct region_counts).
  destruct (py_min_spec _ Hvalues) as [low [Hlow Hmin]].
  destruct (py_max_spec _ Hvalues) as [high [Hhigh Hmax]].
  exists low, high. split; [done|]. split; [done|].
  unfold _get_regions_geojson. rewrite Hfun, Hlow. simpl. rewrite Hhigh. simpl.
  by rewrite (mapM_features_clipped region_info region_counts region_counts
                region_geometry (fun code => clipped footprint (extent code))
                Hwf (fun _ Hitem => Hitem) Hgeometry).
Qed.

(** X4: without a footprint the regions are not clipped: every Feature of
    the collection carries its region's full extent. *)
Theorem regions_unclipped_without_footprint (region_counts : Counter)
    region_info (extent : string -> G) :
  region_counts ≠ [] ->
  counter_wf region_counts ->
  geographic_extent region_info = Some extent ->
  exists low high,
    _get_regions_geojson region_counts None region_info =
      Ok (Some (region_collection region_info low high
        ((fun item => region_feature_of region_info item (extent item.1))
           <$> region_counts))).
Proof.
  intros Hne Hwf Hextent.
  destruct (_get_regions_geojson_clipped region_counts None region_info extent
              Hne Hwf Hextent) as (low & high & _ & _ & Hrun).
  by exists low, high.
Qed.

Lemma clipped_within (footprint : G) (extent : G) :
  geom_within (clipped (Some footprint) extent) extent /\
  (clipped (Some footprint) extent = extent \/
   geom_within (clipped (Some footprint) extent) footprint).
Proof.
  unfold clipped. destruct (prepared_intersects _ _).
  - split; [|right]; intros p Hp; by apply geom_intersection_spec in Hp as [? ?].
  - split; [by intros p|by left].
Qed.

(** X5: with a footprint, every geometry of the collection lies within the
    full extent of its region, and is that extent or lies within the
    footprint. *)
Theorem regions_within_extents (region_counts : Counter) (footprint : G)
    region_info (extent : string -> G) :
  region_counts ≠ [] ->
  counter_wf region_counts ->
  geographic_extent region_info = Some extent ->
  exists low high features,
    _get_regions_geojson region_counts (Some footprint) region_info =
      Ok (Some (region_collection region_info low high features)) /\
    Forall2 (fun item feature => exists g,
               feature = region_feature_of region_info item g /\
               geom_within g (extent item.1) /\
               (g = extent item.1 \/ geom_within g footprint))
      region_counts features.
Proof.
  intros Hne Hwf Hextent.
  destruct (_get_regions_geojson_clipped region_counts (Some footprint) region_info
              extent Hne Hwf Hextent) as (low & high & _ & _ & Hrun).
  eexists low, high, _. split; [exact Hrun|].
  apply Forall2_fmap_r, Forall_Forall2_diag, Forall_forall.
  intros item _. exists (clipped (Some footprint) (extent item.1)).
  split; [done|]. apply clipped_within.
Qed.



(** X6: the helper takes [min] of the counts before anything else: on an
    empty mapping, whenever a per-region function is handed out, it raises
    [ValueError]. *)
Theorem regions_empty_counts_value_error (footprint : option G) region_info :
  is_Some (_region_geometry_function region_info footprint) ->
  _get_regions_geojson [] footprint region_info
    = Raise (ValueError "min() arg is an empty sequence").
Proof.
  intros [region_geometry Hfun]. unfold _get_regions_geojson. by rewrite Hfun.
Qed.

(** *** The regions query end to end *)

Lemma get_regions_geojson_uncached_value (product_name : string)
    (year month day : option Z) w period w1 product s' region_info :
  get_summary product_name year month day w = (Ok (Some period), w1) ->
  index_products_get_by_name product_name (w_store w1) = (Ok (Some product), s') ->
  region_dataset_counts period ≠ [] ->
  RegionInfo_for_product product = Some region_info ->
  (get_regions_geojson_uncached product_name year month day w).1
    = _get_regions_geojson (region_dataset_counts period)
        (display_footprint period) region_info.
Proof.
  intros Hsummary Hproduct Hcounts Hinfo.
  rewrite (get_regions_geojson_uncached_resolved _ _ _ _ _ _ _ _ _ Hsummary Hproduct).
  rewrite Hinfo.
  destruct (region_dataset_counts period) as [|item c] eqn:Hitems; [done|]. simpl.
  destruct (_get_footprint_run period
              (set_store s' (add_trace
                 (Backend "STORE.index.products.get_by_name" [AStr product_name]) w1)))
    as [logs [Hrun _]].
  rewrite (bind_ok _ _ _ _ _ Hrun).
  unfold mbind, M_bind, time_time, lift, log. simpl.
  by destruct (_get_regions_geojson _ _ _).
Qed.

(** X7: the regions are clipped against the footprint the footprint query
    shows: with summary, product and catalog at hand and a non-empty counts
    mapping, the result is the collection assembled for the summary's
    reprojected footprint. *)
Theorem regions_use_display_footprint (product_name : string)
    (year month day : option Z) w period w1 product s' region_info
    (extent : string -> G) :
  get_summary product_name year month day w = (Ok (Some period), w1) ->
  index_products_get_by_name product_name (w_store w1) = (Ok (Some product), s') ->
  region_dataset_counts period ≠ [] ->
  counter_wf (region_dataset_counts period) ->
  RegionInfo_for_product product = Some region_info ->
  geographic_extent region_info = Some extent ->
  exists low high,
    is_minimum low (counter_values (region_dataset_counts period)) /\
    is_maximum high (counter_values (region_dataset_counts period)) /\
    (get_regions_geojson_uncached product_name year month day w).1 =
      Ok (Some (region_collection region_info low high
        ((fun item => region_feature_of region_info item
                        (clipped (display_footprint period) (extent item.1)))
           <$> region_dataset_counts period))).
Proof.
  intros Hsummary Hproduct Hcounts Hwf Hinfo Hextent.
  rewrite (get_regions_geojson_uncached_value _ _ _ _ _ _ _ _ _ _
             Hsummary Hproduct Hcounts Hinfo).
  by apply _get_regions_geojson_clipped.
Qed.


(** *** Products with summaries *)

Lemma index_by_name_fold (ps : list DatasetType) (m : gmap string DatasetType) :
  (forall n p, m !! n = Some p -> DatasetType_name p = n) ->
  (forall n p,
     foldl (fun m p => <[DatasetType_name p := p]> m) m ps !! n = Some p ->
     DatasetType_name p = n) /\
  (forall n,
     is_Some (foldl (fun m p => <[DatasetType_name p := p]> m) m ps !! n) <->
     is_Some (m !! n) \/ n ∈ DatasetType_name <$> ps).
Proof.
  clear dateutil_parser_parse.
  revert m. induction ps as [|q ps IH]; intros m Hm; simpl.
  - split; [done|]. intros n. rewrite elem_of_nil. tauto.
  - destruct (IH (<[DatasetType_name q := q]> m)) as [Hnames Hdom].
    { intros n p. destruct (decide (DatasetType_name q = n)) as [<-|Hne].
      - rewrite lookup_insert_eq. by intros [= <-].
      - rewrite lookup_insert_ne by done. apply Hm. }
    split; [done|]. intros n. rewrite Hdom, elem_of_cons.
    destruct (decide (DatasetType_name q = n)) as [<-|Hne].
    + rewrite lookup_insert_eq. split; [intros _; right; by left|by eauto].
    + rewrite lookup_insert_ne by done.
      split; (intros [Hin|Hin]; [by left|right]); [by right|].
      by destruct Hin as [->|Hin].
Qed.



Lemma index_by_name_is_Some (ps : list DatasetType) n :
  is_Some (index_by_name ps !! n) <-> n ∈ DatasetType_name <$> ps.
Proof.
  unfold index_by_name.
  destruct (index_by_name_fold ps ∅) as [_ Hdom];
    [intros ? ?; by rewrite lookup_empty|].
  rewrite Hdom, lookup_empty. split; [intros [[? [=]]|?]; done|by right].
Qed.

(** The function up to the comprehension over the complete products. *)
Lemma get_products_with_summaries_uncached_run w all s1 complete s2 :
  index_products_get_all (w_store w) = (Ok all, s1) ->
  STORE_list_complete_products s1 = (Ok complete, s2) ->
  get_products_with_summaries_uncached w =
    (products ← mapM (fun product_name =>
        match index_by_name all !! product_name with
        | Some p => summary ← get_summary product_name None None None; mret (p, summary)
        | None => raise (KeyError product_name)
        end) complete;
     match products with
     | [] => raise (RuntimeError
         "No product reports. Run `python -m cubedash.generate --all` to generate some." [])
     | _ => mret products
     end)
    (set_store s2
       (add_trace (Backend "STORE.list_complete_products" [])
          (set_store s1
             (add_trace (Backend "STORE.index.products.get_all" []) w)))).
Proof.
  intros Hall Hcomplete. unfold get_products_with_summaries_uncached.
  erewrite bind_ok; cycle 1.
  { rewrite backend_run, Hall. reflexivity. }
  erewrite bind_ok; cycle 1.
  { rewrite backend_run. simpl. rewrite Hcomplete. reflexivity. }
  reflexivity.
Qed.

(** X9: without any complete product the query raises [RuntimeError] with
    the hint to generate summaries. *)
Theorem no_products_runtime_error w all s1 s2 :
  index_products_get_all (w_store w) = (Ok all, s1) ->
  STORE_list_complete_products s1 = (Ok [], s2) ->
  (get_products_with_summaries_uncached w).1 =
    Raise (RuntimeError
      "No product reports. Run `python -m cubedash.generate --all` to generate some." []).
Proof.
  intros Hall Hcomplete.
  by rewrite (get_products_with_summaries_uncached_run _ _ _ _ _ Hall Hcomplete).
Qed.

(** One step of a comprehension in the state monad. *)
Lemma mapM_M_cons {A B} (f : A -> MF B) (a : A) (l : list A) w :
  mapM f (a :: l) w =
    match f a w with
    | (Ok y, w1) =>
        match mapM f l w1 with
        | (Ok ys, w2) => (Ok (y :: ys), w2)
        | (Raise e, w2) => (Raise e, w2)
        end
    | (Raise e, w1) => (Raise e, w1)
    end.
Proof.
  clear dateutil_parser_parse.
  change (mapM f (a :: l)) with (y ← f a; ys ← mapM f l; mret (y :: ys)).
  unfold mbind, M_bind. destruct (f a w) as [[y|e] w1]; [|done].
  by destruct (mapM f l w1) as [[ys|e] w2].
Qed.

(** [mapM] in the state monad: one element on which the function always
    raises makes the whole comprehension raise. *)
Lemma mapM_M_raises {A B} (f : A -> MF B) (l : list A) (x : A) :
  x ∈ l ->
  (forall w, exists e w', f x w = (Raise e, w')) ->
  forall w, exists e w', mapM f l w = (Raise e, w').
Proof.
  clear dateutil_parser_parse.
  intros Hin Hraise. induction l as [|a l IH]; intros w.
  - by apply elem_of_nil in Hin.
  - rewrite mapM_M_cons.
    destruct (f a w) as [[y|e] w1] eqn:Ha; [|by eauto].
    apply elem_of_cons in Hin as [->|Hin].
    + destruct (Hraise w) as (e & w' & He). congruence.
    + destruct (IH Hin w1) as (e & w' & He). rewrite He. eauto.
Qed.


(** X10: a complete product that the index does not list makes the query
    raise; when it is the first one, the exception is its [KeyError]. *)
Theorem products_missing_from_index w all s1 complete s2 (missing : string) :
  index_products_get_all (w_store w) = (Ok all, s1) ->
  STORE_list_complete_products s1 = (Ok complete, s2) ->
  missing ∈ complete ->
  missing ∉ DatasetType_name <$> all ->
  (exists e, (get_products_with_summaries_uncached w).1 = Raise e) /\
  (forall rest, complete = missing :: rest ->
     (get_products_with_summaries_uncached w).1 = Raise (KeyError missing)).
Proof.
  intros Hall Hcomplete Hin Hmissing.
  rewrite (get_products_with_summaries_uncached_run _ _ _ _ _ Hall Hcomplete).
  assert (index_by_name all !! missing = None) as Hlookup.
  { apply eq_None_not_Some. by rewrite index_by_name_is_Some. }
  split.
  - edestruct (mapM_M_raises
      (fun product_name =>
         match index_by_name all !! product_name with
         | Some p => summary ← get_summary product_name None None None;
                     mret (p, summary)
         | None => raise (KeyError product_name)
         end : MF _) complete missing Hin) as (e & w' & Hraise).
    { intros w0. rewrite Hlookup. by eexists _, _. }
    exists e. erewrite bind_raise; [done|exact Hraise].
  - intros rest ->. simpl. unfold mbind, M_bind. by rewrite Hlookup.
Qed.




End Further.

(** ** The further properties on the concrete instance *)

Lemma footprint_feature_iff_witness :
  (get_footprint_geojson_uncached "demo_scene" None None None Demo.world0).1
    = Ok (Some (footprint_feature "demo_scene" None None None Demo.demo_scene
                  Demo.demo_footprint)) <->
  exists g,
    dataset_count Demo.demo_scene ≠ 0 /\
    footprint_geometry Demo.demo_scene = Some g /\
    geom_is_empty g = false /\
    geom_is_empty (to_display (footprint_crs Demo.demo_scene) g) = false /\
    footprint_feature "demo_scene" None None None Demo.demo_scene Demo.demo_footprint
      = footprint_feature "demo_scene" None None None Demo.demo_scene
          (to_display (footprint_crs Demo.demo_scene) g).
Proof.
  apply (footprint_feature_iff "demo_scene" None None None Demo.world0
           Demo.demo_scene
           (get_summary "demo_scene" None None None Demo.world0).2).
  vm_compute. reflexivity.
Defined.

Lemma footprint_feature_no_backend_witness :
  let w1 := (get_summary "demo_scene" None None None Demo.world0).2 in
  let w' := (get_footprint_geojson_uncached "demo_scene" None None None
               Demo.world0).2 in
  w_store w' = w_store w1 /\ w_cache w' = w_cache w1 /\ w_now w' = w_now w1 /\
  exists logs, w_trace w' = (w_trace w1 ++ logs)%list /\ Forall is_log_record logs.
Proof.
  apply (footprint_feature_no_backend "demo_scene" None None None Demo.world0
           (Ok (Some Demo.demo_scene))).
  vm_compute. reflexivity.
Defined.


Lemma regions_unclipped_without_footprint_witness :
  exists low high,
    _get_regions_geojson [("r1", 1); ("r2", 2)] None Demo.demo_regions =
      Ok (Some (region_collection Demo.demo_regions low high
        ((fun item => region_feature_of Demo.demo_regions item
                        (Demo.demo_extent item.1))
           <$> [("r1", 1); ("r2", 2)]))).
Proof.
  apply (regions_unclipped_without_footprint [("r1", 1); ("r2", 2)]
           Demo.demo_regions Demo.demo_extent).
  - discriminate.
  - unfold counter_wf. apply (bool_decide_unpack _). vm_compute. reflexivity.
  - reflexivity.
Defined.

Lemma regions_within_extents_witness :
  exists low high features,
    _get_regions_geojson [("r1", 1); ("r2", 2)] (Some Demo.demo_footprint)
        Demo.demo_regions =
      Ok (Some (region_collection Demo.demo_regions low high features)) /\
    Forall2 (fun item feature => exists g,
               feature = region_feature_of Demo.demo_regions item g /\
               geom_within g (Demo.demo_extent item.1) /\
               (g = Demo.demo_extent item.1 \/ geom_within g Demo.demo_footprint))
      [("r1", 1); ("r2", 2)] features.
Proof.
  apply (regions_within_extents [("r1", 1); ("r2", 2)] Demo.demo_footprint
           Demo.demo_regions Demo.demo_extent).
  - discriminate.
  - unfold counter_wf. apply (bool_decide_unpack _). vm_compute. reflexivity.
  - reflexivity.
Defined.

Lemma regions_empty_counts_value_error_witness :
  _get_regions_geojson [] (Some Demo.demo_footprint) Demo.demo_regions
    = Raise (ValueError "min() arg is an empty sequence").
Proof.
  apply (regions_empty_counts_value_error (Some Demo.demo_footprint)
           Demo.demo_regions).
  by eexists.
Defined.

Lemma regions_use_display_footprint_witness :
  exists low high,
    is_minimum low (counter_values (region_dataset_counts Demo.demo_scene)) /\
    is_maximum high (counter_values (region_dataset_counts Demo.demo_scene)) /\
    (get_regions_geojson_uncached "demo_scene" None None None Demo.world0).1 =
      Ok (Some (region_collection Demo.demo_regions low high
        ((fun item => region_feature_of Demo.demo_regions item
                        (clipped (display_footprint Demo.demo_scene)
                           (Demo.demo_extent item.1)))
           <$> region_dataset_counts Demo.demo_scene))).
Proof.
  apply (regions_use_display_footprint "demo_scene" None None None Demo.world0
           Demo.demo_scene
           (get_summary "demo_scene" None None None Demo.world0).2
           "demo_scene" 2%nat Demo.demo_regions Demo.demo_extent).
  - vm_compute. reflexivity.
  - vm_compute. reflexivity.
  - discriminate.
  - unfold counter_wf. apply (bool_decide_unpack _). vm_compute. reflexivity.
  - reflexivity.
  - reflexivity.
Defined.


Lemma no_products_runtime_error_witness :
  (get_products_with_summaries_uncached (H := Demo.store_with [])
     Demo.world0).1 =
    Raise (RuntimeError
      "No product reports. Run `python -m cubedash.generate --all` to generate some." []).
Proof.
  apply (no_products_runtime_error (store := Demo.store_with []) Demo.world0
           Demo.demo_products 1%nat 2%nat); reflexivity.
Defined.

Lemma products_missing_from_index_witness :
  (exists e,
     (get_products_with_summaries_uncached
        (H := Demo.store_with ["demo_scene"; "ghost"]) Demo.world0).1
       = Raise e) /\
  (get_products_with_summaries_uncached
     (H := Demo.store_with ["ghost"; "demo_scene"]) Demo.world0).1
    = Raise (KeyError "ghost").
Proof.
  split.
  - apply (products_missing_from_index
             (store := Demo.store_with ["demo_scene"; "ghost"]) Demo.world0
             Demo.demo_products 1%nat ["demo_scene"; "ghost"] 2%nat "ghost");
      [reflexivity|reflexivity| |].
    + apply (bool_decide_unpack _). vm_compute. reflexivity.
    + apply (bool_decide_unpack _). vm_compute. reflexivity.
  - apply (products_missing_from_index
             (store := Demo.store_with ["ghost"; "demo_scene"]) Demo.world0
             Demo.demo_products 1%nat ["ghost"; "demo_scene"] 2%nat "ghost")
      with (rest := ["demo_scene"]);
      [reflexivity|reflexivity| | |reflexivity].
    + apply (bool_decide_unpack _). vm_compute. reflexivity.
    + apply (bool_decide_unpack _). vm_compute. reflexivity.
Defined.

